(** * Dataset version utilities of the LeRobot dataset visualizer

    A shallow embedding of the module that fetches a dataset's
    [meta/info.json], validates its [codebase_version] and builds the URLs
    of the dataset's artifacts ([getDatasetInfo], [getDatasetVersion],
    [buildVersionedUrl]), followed by the properties proved about it.

    JavaScript strings are modelled by [string]; the only character the
    code inspects is the path separator ["/"]. *)

From Stdlib Require Import String Ascii List Bool Arith Lia.
From Stdlib Require Import DecimalString.
From Stdlib Require Import Floats.PrimFloat.
From Equations Require Import Equations.
Import ListNotations.
Open Scope string_scope.
Set Warnings "-abstract-large-number".

(* ===================================================================== *)
(** * Strings *)
(* ===================================================================== *)

(** Truthiness of a string: every string but the empty one. *)
Definition truthy_string (s : string) : bool :=
  match s with
  | EmptyString => false
  | String _ _ => true
  end.

Definition is_slash (c : ascii) : bool := Ascii.eqb c "/".

(** ** [s.replace(/^\/+|\/+$/g, "")]

    A global replace scans the subject from left to right.  At index 0 the
    first alternative [^\/+] is tried first and, being greedy, takes the
    whole leading run of separators.  At any later index [^] cannot hold,
    so only [\/+$] can match there: it does exactly when everything from
    that index to the end of the subject is a non-empty run of separators.
    A character at which nothing matches is copied to the result. *)

(** What is left of [s] after the greedy [\/+] has consumed its run. *)
Fixpoint skip_slashes (s : string) : string :=
  match s with
  | String c r => if is_slash c then skip_slashes r else s
  | EmptyString => EmptyString
  end.

(** [s] is made of separators up to its end (the look-ahead of [\/+$]). *)
Fixpoint only_slashes (s : string) : bool :=
  match s with
  | String c r => is_slash c && only_slashes r
  | EmptyString => true
  end.

(** The scan at the indices after the start of the subject. *)
Fixpoint replace_from (s : string) : string :=
  match s with
  | String c r =>
      if is_slash c && only_slashes r then EmptyString
      else String c (replace_from r)
  | EmptyString => EmptyString
  end.

(** The whole replace. *)
Definition replace_slashes (s : string) : string :=
  match s with
  | String c r =>
      if is_slash c then replace_from (skip_slashes r)
      else String c (replace_from r)
  | EmptyString => EmptyString
  end.

(** ** The prefix expression

    [basePath ? `${basePath.replace(/^\/+|\/+$/g, "")}/` : ""], which
    [getDatasetInfo] and [buildVersionedUrl] both evaluate. *)
Definition prefix_of (basePath : string) : string :=
  if truthy_string basePath then replace_slashes basePath ++ "/" else "".

(** ** Stripping separators, as the specification words it *)

Fixpoint rev_string (s : string) : string :=
  match s with
  | String c r => rev_string r ++ String c EmptyString
  | EmptyString => EmptyString
  end.

(** All leading separators removed. *)
Definition strip_leading (s : string) : string := skip_slashes s.

(** All trailing separators removed. *)
Definition strip_trailing (s : string) : string :=
  rev_string (strip_leading (rev_string s)).

(** "Strip leading/trailing path separators". *)
Definition spec_strip (s : string) : string :=
  strip_trailing (strip_leading s).

(** "Append a single trailing separator when non-empty", read as the
    stripped result being non-empty. *)
Definition spec_normalize (s : string) : string :=
  let stripped := spec_strip s in
  if truthy_string stripped then stripped ++ "/" else "".

(* ===================================================================== *)
(** * Configuration read from the process environment *)
(* ===================================================================== *)

Record environment : Type := {
  env_DATASET_URL : option string;
  env_HF_TOKEN : option string;
  env_HUGGINGFACE_TOKEN : option string
}.

(** No variable set. *)
Definition empty_environment : environment :=
  {| env_DATASET_URL := None; env_HF_TOKEN := None;
     env_HUGGINGFACE_TOKEN := None |}.

(** [x || y] on environment values: an unset or empty [x] is falsy. *)
Definition env_or (x y : option string) : option string :=
  match x with
  | Some s => if truthy_string s then x else y
  | None => y
  end.

(** [process.env.DATASET_URL || "https://huggingface.co/datasets"] *)
Definition DATASET_URL (env : environment) : string :=
  match env_or (env_DATASET_URL env) (Some "https://huggingface.co/datasets") with
  | Some s => s
  | None => "https://huggingface.co/datasets"
  end.

(** A parameter declared [basePath: string = ""]: the default stands in
    for an omitted argument. *)
Definition default_arg (arg : option string) (d : string) : string :=
  match arg with
  | Some s => s
  | None => d
  end.

(* ===================================================================== *)
(** * [buildVersionedUrl] *)
(* ===================================================================== *)

Definition buildVersionedUrl (env : environment)
    (repoId version path : string) (basePath : option string) : string :=
  let basePath := default_arg basePath "" in
  let prefix := prefix_of basePath in
  DATASET_URL env ++ "/" ++ repoId ++ "/resolve/main/" ++ prefix ++ path.

(* ===================================================================== *)
(** * JavaScript values *)
(* ===================================================================== *)

(** An instance of [Error]: what [new Error(msg)] builds and what the
    runtime and the transport throw ([TypeError], [SyntaxError], the
    [DOMException] named ["AbortError"]). *)
Record error : Type := {
  err_name : string;
  err_message : string
}.

Definition new_Error (message : string) : error :=
  {| err_name := "Error"; err_message := message |}.

(** Parsed JSON.  Numbers are IEEE 754 doubles; an object lists its own
    properties, each key once. *)
#[warnings="-register-all"]
Inductive json : Type :=
| JNull
| JBool (b : bool)
| JNum (x : float)
| JStr (s : string)
| JArr (items : list json)
| JObj (fields : list (string * json)).

(** A value of type [any]: [undefined], data, or an [Error] instance. *)
Inductive value : Type :=
| VUndefined
| VData (j : json)
| VError (e : error).

Definition null : value := VData JNull.

(** [+0], [-0] and [NaN] are the falsy numbers. *)
Definition falsy_number (x : float) : bool :=
  PrimFloat.eqb x 0%float || negb (PrimFloat.eqb x x).

(** ToBoolean. *)
Definition truthy (v : value) : bool :=
  match v with
  | VUndefined => false
  | VData JNull => false
  | VData (JBool b) => b
  | VData (JNum x) => negb (falsy_number x)
  | VData (JStr s) => truthy_string s
  | VData (JArr _) => true
  | VData (JObj _) => true
  | VError _ => true
  end.

(** [v instanceof Error] *)
Definition instanceof_Error (v : value) : bool :=
  match v with
  | VError _ => true
  | _ => false
  end.

(** [v === s] for a string [s]; [Array.prototype.includes] compares a
    string the same way. *)
Definition strict_eq_string (v : value) (s : string) : bool :=
  match v with
  | VData (JStr t) => String.eqb t s
  | _ => false
  end.

(** [list.includes(v)] on an array of strings. *)
Definition includes (list : list string) (v : value) : bool :=
  existsb (strict_eq_string v) list.

Fixpoint lookup (key : string) (fields : list (string * json)) : value :=
  match fields with
  | (k, j) :: rest => if String.eqb k key then VData j else lookup key rest
  | [] => VUndefined
  end.

(** Whether an object has the property at all. *)
Definition has_field (j : json) (key : string) : bool :=
  match j with
  | JObj fields => existsb (fun kv => String.eqb (fst kv) key) fields
  | _ => false
  end.

(** How a value is named in the message of the [TypeError] below. *)
Definition nullish_name (v : value) : string :=
  match v with
  | VUndefined => "undefined"
  | _ => "null"
  end.

(** The [TypeError] of reading a property of [null] or [undefined]
    (message as V8 words it). *)
Definition TypeError_read (v : value) (key : string) : error :=
  {| err_name := "TypeError";
     err_message := "Cannot read properties of " ++ nullish_name v
                    ++ " (reading '" ++ key ++ "')" |}.

(** The outcome of evaluating something: a result or a thrown value. *)
Inductive completion (A : Type) : Type :=
| Normal (a : A)
| Throw (thrown : value).
Arguments Normal {A} a.
Arguments Throw {A} thrown.

(** [v.key], for the property names this module reads ([features],
    [codebase_version], [name]); none of them is a built-in property of a
    primitive, an array or a plain object. *)
Definition get_prop (v : value) (key : string) : completion value :=
  match v with
  | VUndefined => Throw (VError (TypeError_read v key))
  | VData JNull => Throw (VError (TypeError_read v key))
  | VData (JObj fields) => Normal (lookup key fields)
  | VData _ => Normal VUndefined
  | VError e =>
      if String.eqb key "name" then Normal (VData (JStr (err_name e)))
      else if String.eqb key "message" then Normal (VData (JStr (err_message e)))
      else Normal VUndefined
  end.

(** [v?.name] *)
Definition optional_name (v : value) : value :=
  match get_prop v "name" with
  | Normal n => n
  | Throw _ => VUndefined
  end.

(** [err?.name === "AbortError"] *)
Definition is_AbortError (err : value) : bool :=
  strict_eq_string (optional_name err) "AbortError".

(** An integer such as [response.status] or [300 * attempt], as a template
    literal prints it. *)
Definition decimal (n : nat) : string :=
  NilZero.string_of_uint (Nat.to_uint n).

(* ===================================================================== *)
(** * The transport and the effects of a call *)
(* ===================================================================== *)

(** The arguments of [fetch]; the abort signal it also receives is
    accounted for by the transport's answers. *)
Record request : Type := {
  req_url : string;
  req_method : string;
  req_cache : string;
  req_headers : list (string * string)
}.

(** A [Response]: its status and what [response.json()] settles to. *)
Record response : Type := {
  resp_status : nat;
  resp_json : completion json
}.

(** [response.ok]: the status is in the range 200-299. *)
Definition resp_ok (r : response) : bool :=
  ((200 <=? resp_status r) && (resp_status r <=? 299))%nat.

Inductive fetch_outcome : Type :=
| Resolved (r : response)
| Rejected (reason : value).

(** What a call does to the outside world, in order. *)
Inductive event : Type :=
| EvSetAbortTimer (ms : nat)
| EvFetch (rq : request)
| EvWait (ms : nat)
| EvClearAbortTimer.

Definition trace : Type := list event.

Definition is_fetch (e : event) : bool :=
  match e with
  | EvFetch _ => true
  | _ => false
  end.

(** Number of requests issued so far. *)
Definition fetch_count (tr : trace) : nat := length (filter is_fetch tr).

(** Waits taken so far. *)
Fixpoint waits (tr : trace) : list nat :=
  match tr with
  | EvWait ms :: rest => ms :: waits rest
  | _ :: rest => waits rest
  | [] => []
  end.

(** ** Computations: a trace is threaded, a value may be thrown *)

Definition Js (A : Type) : Type := trace -> trace * completion A.

Definition ret {A} (a : A) : Js A := fun tr => (tr, Normal a).

Definition throw {A} (v : value) : Js A := fun tr => (tr, Throw v).

Definition bind {A B} (m : Js A) (k : A -> Js B) : Js B :=
  fun tr =>
    match m tr with
    | (tr', Normal a) => k a tr'
    | (tr', Throw v) => (tr', Throw v)
    end.

(** [try { m } catch (e) { handler e }] *)
Definition try_catch {A} (m : Js A) (handler : value -> Js A) : Js A :=
  fun tr =>
    match m tr with
    | (tr', Normal a) => (tr', Normal a)
    | (tr', Throw v) => handler v tr'
    end.

Definition emit (e : event) : Js unit := fun tr => ((tr ++ [e])%list, Normal tt).

Definition lift {A} (c : completion A) : Js A := fun tr => (tr, c).

Declare Scope js_scope.
Delimit Scope js_scope with js.
Notation "x <- m ;; k" := (bind m (fun x => k))
  (at level 61, m at next level, right associativity) : js_scope.
Notation "m ;; k" := (bind m (fun _ => k))
  (at level 61, right associativity) : js_scope.

(** The result of a call started with nothing done yet, and its events. *)
Definition result {A} (m : Js A) : completion A := snd (m []).
Definition events {A} (m : Js A) : trace := fst (m []).

(* ===================================================================== *)
(** * [getDatasetInfo] and [getDatasetVersion] *)
(* ===================================================================== *)

Section Runtime.
Local Open Scope js_scope.

(** Number::toString of the runtime, for numbers read from JSON. *)
Variable number_to_string : float -> string.

(** The transport: what the [n]-th request of a call (counted from 0)
    settles to.  A request cancelled by the abort timer is one that is
    rejected with the ["AbortError"]. *)
Variable network : nat -> request -> fetch_outcome.

(** The [TypeError] of converting to a string an object that has no
    usable [toString] or [valueOf] (message as V8 words it). *)
Definition TypeError_primitive : error :=
  {| err_name := "TypeError";
     err_message := "Cannot convert object to primitive value" |}.

(** ToString of data, as a template literal applies it.  A parsed object
    inherits [Object.prototype.toString] and prints as "[object Object]",
    unless it has an own property "toString": that one, read from JSON, is
    not callable, the inherited [valueOf] returns the object itself, and
    the conversion throws.  An array prints its items joined by commas,
    [null] items as nothing, and throws what the first item that cannot be
    printed throws. *)
Fixpoint json_to_string (j : json) : completion string :=
  match j with
  | JNull => Normal "null"
  | JBool b => Normal (if b then "true" else "false")
  | JNum x => Normal (number_to_string x)
  | JStr s => Normal s
  | JArr items =>
      (fix join (l : list json) : completion string :=
         match l with
         | [] => Normal ""
         | x :: rest =>
             match (match x with
                    | JNull => Normal ""
                    | _ => json_to_string x
                    end) with
             | Throw thrown => Throw thrown
             | Normal item =>
                 match rest with
                 | [] => Normal item
                 | _ :: _ =>
                     match join rest with
                     | Throw thrown => Throw thrown
                     | Normal others => Normal (item ++ "," ++ others)
                     end
                 end
             end
         end) items
  | JObj fields =>
      if has_field j "toString" then Throw (VError TypeError_primitive)
      else Normal "[object Object]"
  end.

(** [Error.prototype.toString] *)
Definition error_to_string (e : error) : string :=
  if negb (truthy_string (err_name e)) then err_message e
  else if negb (truthy_string (err_message e)) then err_name e
  else err_name e ++ ": " ++ err_message e.

Definition to_string (v : value) : completion string :=
  match v with
  | VUndefined => Normal "undefined"
  | VData j => json_to_string j
  | VError e => Normal (error_to_string e)
  end.

(** [await fetch(url, init)] *)
Definition fetch (rq : request) : Js response :=
  fun tr =>
    ((tr ++ [EvFetch rq])%list,
     match network (fetch_count tr) rq with
     | Resolved r => Normal r
     | Rejected reason => Throw reason
     end).

(** [await new Promise((r) => setTimeout(r, ms))] *)
Definition wait (ms : nat) : Js unit := emit (EvWait ms).

Definition maxAttempts : nat := 2.

(** The [while (attempt < maxAttempts)] loop.  It yields the variables
    [response] and [lastError] as they are when the loop is left;
    [response] is still [null] ([None]) unless a request was answered. *)
Equations? retry_loop (rq : request) (attempt : nat) (lastError : value)
    (tr : trace) : trace * completion (option response * value)
    by wf (maxAttempts - attempt) lt :=
  retry_loop rq attempt lastError tr with le_lt_dec maxAttempts attempt := {
    | left _ => ret (None, lastError) tr
    | right _ =>
        try_catch
          (response <- fetch rq ;;
           ret (Some response, lastError))
          (fun err =>
             let lastError := err in
             if is_AbortError err then ret (None, lastError)
             else
               let attempt := (attempt + 1)%nat in
               if (attempt <? maxAttempts)%nat then
                 wait (300 * attempt)%nat ;;
                 (fun tr' => retry_loop rq attempt lastError tr')
               else (fun tr' => retry_loop rq attempt lastError tr'))
          tr }.
Proof.
  all: subst attempt; unfold maxAttempts in *.
  all: destruct attempt0 as [|[|?]]; cbn; lia.
Qed.

(** [process.env.HF_TOKEN || process.env.HUGGINGFACE_TOKEN], turned into
    the request headers. *)
Definition auth_headers (env : environment) : list (string * string) :=
  match env_or (env_HF_TOKEN env) (env_HUGGINGFACE_TOKEN env) with
  | Some token =>
      if truthy_string token then [("Authorization", "Bearer " ++ token)]
      else []
  | None => []
  end.

(** [testUrl] *)
Definition info_url (env : environment) (repoId basePath : string) : string :=
  let prefix := prefix_of basePath in
  DATASET_URL env ++ "/" ++ repoId ++ "/resolve/main/" ++ prefix
  ++ "meta/info.json".

Definition info_request (env : environment) (repoId basePath : string)
  : request :=
  {| req_url := info_url env repoId basePath;
     req_method := "GET";
     req_cache := "no-store";
     req_headers := auth_headers env |}.

Definition access_denied_message (status : nat) (repoId testUrl : string)
  : string :=
  "Failed to fetch dataset info: " ++ decimal status ++ ". "
  ++ "The dataset " ++ repoId ++ " may be private or gated. "
  ++ "If it's private, set an access token via HF_TOKEN env variable. "
  ++ "URL tried: " ++ testUrl.

Definition fetch_failed_message (status : nat) : string :=
  "Failed to fetch dataset info: " ++ decimal status.

Definition malformed_message : string :=
  "Dataset info.json does not have the expected features structure".

Definition incompatible_message (repoId : string) : string :=
  "Dataset " ++ repoId ++ " is not compatible with this visualizer. "
  ++ "Failed to read dataset information from the main revision.".

(** The [catch (error)] block both functions end with. *)
Definition rethrow_or_incompatible {A} (repoId : string) (error : value)
  : Js A :=
  if instanceof_Error error then throw error
  else throw (VError (new_Error (incompatible_message repoId))).

(** The [try] block of [getDatasetInfo]. *)
Definition getDatasetInfo_try (env : environment) (repoId basePath : string)
  : Js json :=
  let testUrl := info_url env repoId basePath in
  let rq := info_request env repoId basePath in
  emit (EvSetAbortTimer 10000) ;;
  loop <- retry_loop rq 0 null ;;
  let '(response, lastError) := loop in
  emit EvClearAbortTimer ;;
  match response with
  | None =>
      if truthy lastError then throw lastError
      else throw (VError (new_Error
                   "Unknown network error while fetching dataset info"))
  | Some response =>
      if negb (resp_ok response) then
        if (resp_status response =? 401)%nat
           || (resp_status response =? 403)%nat
        then throw (VError (new_Error
               (access_denied_message (resp_status response) repoId testUrl)))
        else throw (VError (new_Error
               (fetch_failed_message (resp_status response))))
      else
        data <- lift (resp_json response) ;;
        features <- lift (get_prop (VData data) "features") ;;
        if negb (truthy features) then
          throw (VError (new_Error malformed_message))
        else ret data
  end.

Definition getDatasetInfo (env : environment) (repoId : string)
    (basePath : option string) : Js json :=
  let basePath := default_arg basePath "" in
  try_catch (getDatasetInfo_try env repoId basePath)
            (rethrow_or_incompatible repoId).

Definition supportedVersions : list string := ["v3.0"; "v2.1"; "v2.0"].

Definition missing_version_message : string :=
  "Dataset info.json does not contain codebase_version".

(** The message of the unsupported-version error; evaluating the
    template literal may throw. *)
Definition unsupported_version_message (repoId : string)
    (codebaseVersion : value) : completion string :=
  match to_string codebaseVersion with
  | Throw thrown => Throw thrown
  | Normal printed =>
      Normal ("Dataset " ++ repoId ++ " has codebase version "
              ++ printed ++ ", which is not supported. "
              ++ "This tool only works with dataset versions 3.0, 2.1, or 2.0. "
              ++ "Please use a compatible dataset version.")
  end.

(** The [try] block of [getDatasetVersion]. *)
Definition getDatasetVersion_try (env : environment)
    (repoId basePath : string) : Js value :=
  datasetInfo <- getDatasetInfo env repoId (Some basePath) ;;
  codebaseVersion <- lift (get_prop (VData datasetInfo) "codebase_version") ;;
  if negb (truthy codebaseVersion) then
    throw (VError (new_Error missing_version_message))
  else if negb (includes supportedVersions codebaseVersion) then
    message <- lift (unsupported_version_message repoId codebaseVersion) ;;
    throw (VError (new_Error message))
  else ret codebaseVersion.

Definition getDatasetVersion (env : environment) (repoId : string)
    (basePath : option string) : Js value :=
  let basePath := default_arg basePath "" in
  try_catch (getDatasetVersion_try env repoId basePath)
            (rethrow_or_incompatible repoId).

End Runtime.

(* ===================================================================== *)
(** * Vocabulary of the statements *)
(* ===================================================================== *)

(** A string that does not start with a separator. *)
Definition no_leading_slash (s : string) : Prop :=
  match s with
  | String c _ => is_slash c = false
  | EmptyString => True
  end.

(** [needle] occurs in [hay]. *)
Definition contains (needle hay : string) : Prop :=
  exists before after, hay = before ++ needle ++ after.

(** A top-level field of a descriptor, [undefined] when it has none. *)
Definition field (d : json) (key : string) : value :=
  match d with
  | JObj fields => lookup key fields
  | _ => VUndefined
  end.

(** The transport answers the requests for [rq] with the response [r]: at
    the first attempt, or at the second after a first attempt that failed
    without being cancelled. *)
Definition answered (network : nat -> request -> fetch_outcome)
    (rq : request) (r : response) : Prop :=
  network 0 rq = Resolved r
  \/ exists err, network 0 rq = Rejected err
                 /\ is_AbortError err = false
                 /\ network 1 rq = Resolved r.

(** A request fails with the transport fault [e]: an [Error] that is not
    the cancellation. *)
Definition transport_fault (outcome : fetch_outcome) (e : error) : Prop :=
  outcome = Rejected (VError e) /\ err_name e <> "AbortError".

(** A request is cancelled with [e]: the [Error] named "AbortError". *)
Definition cancelled (outcome : fetch_outcome) (e : error) : Prop :=
  outcome = Rejected (VError e) /\ err_name e = "AbortError".

(** What [getDatasetInfo] makes of a response once it has one: the
    outcome of the statements that follow the loop. *)
Definition response_completion (env : environment)
    (repoId basePath : string) (response : response) : completion json :=
  if negb (resp_ok response) then
    if (resp_status response =? 401)%nat || (resp_status response =? 403)%nat
    then Throw (VError (new_Error
           (access_denied_message (resp_status response) repoId
              (info_url env repoId basePath))))
    else Throw (VError (new_Error
           (fetch_failed_message (resp_status response))))
  else
    match resp_json response with
    | Throw v => Throw v
    | Normal data =>
        match get_prop (VData data) "features" with
        | Throw v => Throw v
        | Normal features =>
            if negb (truthy features)
            then Throw (VError (new_Error malformed_message))
            else Normal data
        end
    end.

(** The [catch] block, on a completion. *)
Definition caught {A} (repoId : string) (c : completion A) : completion A :=
  match c with
  | Normal a => Normal a
  | Throw v =>
      if instanceof_Error v then Throw v
      else Throw (VError (new_Error (incompatible_message repoId)))
  end.

(** ** Sample transports and bodies *)

(** Every request is answered with the given status and parsed body. *)
Definition respond_with (status : nat) (body : json)
  : nat -> request -> fetch_outcome :=
  fun _ _ => Resolved {| resp_status := status; resp_json := Normal body |}.

(** Every request is rejected with the given error. *)
Definition reject_with (e : error) : nat -> request -> fetch_outcome :=
  fun _ _ => Rejected (VError e).

Definition connection_refused : error :=
  {| err_name := "TypeError"; err_message := "fetch failed" |}.

Definition operation_aborted : error :=
  {| err_name := "AbortError"; err_message := "This operation was aborted" |}.

(** The first request is rejected with [first], the second with
    [second]. *)
Definition reject_twice (first second : value)
  : nat -> request -> fetch_outcome :=
  fun n _ => match n with
             | 0 => Rejected first
             | _ => Rejected second
             end.

(** The first request is rejected with [first], the second is answered
    with the given status and parsed body. *)
Definition reject_then_respond (first : value) (status : nat) (body : json)
  : nat -> request -> fetch_outcome :=
  fun n _ => match n with
             | 0 => Rejected first
             | _ => Resolved {| resp_status := status;
                                resp_json := Normal body |}
             end.

(** An environment with [HF_TOKEN] set. *)
Definition token_environment : environment :=
  {| env_DATASET_URL := None; env_HF_TOKEN := Some "hf_secret";
     env_HUGGINGFACE_TOKEN := Some "other" |}.

(** A descriptor whose version is the boolean [true]. *)
Definition pusht_info_true_version : json :=
  JObj [("codebase_version", JBool true); ("features", JObj [])].

(** A descriptor of the "v2.1" format. *)
Definition pusht_info : json :=
  JObj [("codebase_version", JStr "v2.1"); ("fps", JNum 10%float);
        ("features", JObj [])].

(** The same without its features, and with features set to [null]. *)
Definition pusht_info_no_features : json :=
  JObj [("codebase_version", JStr "v2.1"); ("fps", JNum 10%float)].

Definition pusht_info_null_features : json :=
  JObj [("codebase_version", JStr "v2.1"); ("fps", JNum 10%float);
        ("features", JNull)].

(** A stand-in for Number::toString, right on 10, the only number of the
    samples. *)
Definition print_ten (x : float) : string := "10".

(** No response arrives and [v] is the value [lastError] holds when the
    loop is left: the reason of a cancelled first request, or the reason
    of the second request after a first that failed without being
    cancelled. *)
Definition last_rejection (network : nat -> request -> fetch_outcome)
    (rq : request) (v : value) : Prop :=
  (network 0 rq = Rejected v /\ is_AbortError v = true)
  \/ exists first, network 0 rq = Rejected first
                   /\ is_AbortError first = false
                   /\ network 1 rq = Rejected v.

(** The last character of [s] is a separator. *)
Fixpoint ends_with_slash (s : string) : bool :=
  match s with
  | EmptyString => false
  | String c EmptyString => is_slash c
  | String _ r => ends_with_slash r
  end.

(** A path segment or base path that is not empty and has no separator
    at either end. *)
Definition trimmed_path (s : string) : Prop :=
  truthy_string s = true /\ no_leading_slash s /\ ends_with_slash s = false.

(* ===================================================================== *)
(** * The dataset sub-path page ([[org]/[dataset]/[...rest]/page.tsx]) *)
(* ===================================================================== *)

(** [parts.join("/")] on an array of strings. *)
Fixpoint join_slash (parts : list string) : string :=
  match parts with
  | [] => ""
  | [p] => p
  | p :: rest => p ++ "/" ++ join_slash rest
  end.

(** [\d]: an ASCII decimal digit. *)
Definition is_digit (c : ascii) : bool :=
  ((48 <=? nat_of_ascii c) && (nat_of_ascii c <=? 57))%nat.

(** [s] is made of digits up to its end. *)
Fixpoint only_digits (s : string) : bool :=
  match s with
  | String c r => is_digit c && only_digits r
  | EmptyString => true
  end.

(** What follows the literal [p] at the start of [s], if [s] starts with
    [p]. *)
Fixpoint after_prefix (p s : string) : option string :=
  match p, s with
  | EmptyString, _ => Some s
  | String a p', String b s' =>
      if Ascii.eqb a b then after_prefix p' s' else None
  | String _ _, EmptyString => None
  end.

(** [/^episode_\d+$/.test(s)] *)
Definition test_episode (s : string) : bool :=
  match after_prefix "episode_" s with
  | Some digits => truthy_string digits && only_digits digits
  | None => false
  end.

(** [s.replace(/^episode_/, "")] *)
Definition replace_episode_prefix (s : string) : string :=
  match after_prefix "episode_" s with
  | Some rest => rest
  | None => s
  end.

(** What the page does: it redirects, or it renders the episode with
    [getEpisodeDataSafe(org, dataset, Number(episodeText), basePath)]. *)
Inductive page_outcome : Type :=
| Redirect (url : string)
| Render (basePath : string) (episodeText : string).

Section SubpathPage.

(** The text of [${episodeN}], the first episode configured in the
    environment variable [EPISODES] (or 0). *)
Variable episodeN : string.

Definition DatasetSubpathPage (org dataset : string) (rest : list string)
  : page_outcome :=
  let last :=
    match List.last (map Some rest) None with
    | Some s => if truthy_string s then s else ""
    | None => ""
    end in
  if negb (test_episode last) then
    let base :=
      match rest with
      | [] => ""
      | _ :: _ => join_slash rest ++ "/"
      end in
    Redirect ("/" ++ org ++ "/" ++ dataset ++ "/" ++ base
              ++ "episode_" ++ episodeN)
  else
    let basePath := join_slash (removelast rest) in
    Render basePath (replace_episode_prefix last).

End SubpathPage.

(* ===================================================================== *)
(** * Pagination and keys of the episode viewer ([episode-viewer.tsx]) *)
(* ===================================================================== *)

Definition pageSize : nat := 100.

(** [Math.ceil(n / d)] on array lengths; the quotient of two such integers
    is never rounded to an integer it does not equal. *)
Definition ceil_div (n d : nat) : nat :=
  (n / d + (if (n mod d =? 0)%nat then 0 else 1))%nat.

(** [Math.ceil(episodes.length / pageSize)] *)
Definition totalPages {A} (episodes : list A) : nat :=
  ceil_div (length episodes) pageSize.

(** [l.slice(start, stop)] for indices that are not negative. *)
Definition slice {A} (start stop : nat) (l : list A) : list A :=
  firstn (stop - start) (skipn start l).

(** [episodes.slice((currentPage - 1) * pageSize, currentPage * pageSize)];
    [currentPage] is at least 1 (for 0 the source slices up to index 0 and
    gets the empty array, as here). *)
Definition paginatedEpisodes {A} (episodes : list A) (currentPage : nat)
  : list A :=
  slice ((currentPage - 1) * pageSize) (currentPage * pageSize) episodes.

(** [nextPage] and [prevPage], as functions of the page shown. *)
Definition nextPage (totalPages currentPage : nat) : nat :=
  if (currentPage <? totalPages)%nat then (currentPage + 1)%nat
  else currentPage.

Definition prevPage (currentPage : nat) : nat :=
  if (1 <? currentPage)%nat then (currentPage - 1)%nat else currentPage.

Section EpisodeList.

Variable A : Type.
Variable same : A -> A -> bool.

(** [episodes.indexOf(episodeId)], [None] standing for -1. *)
Fixpoint indexOf (episodes : list A) (episodeId : A) : option nat :=
  match episodes with
  | [] => None
  | e :: rest =>
      if same e episodeId then Some 0
      else option_map S (indexOf rest episodeId)
  end.

(** The page set when the viewer is given its episode:
    [Math.floor(episodeIndex / pageSize) + 1], or the page unchanged when
    the episode is not in the list. *)
Definition initial_page (episodes : list A) (episodeId : A)
    (currentPage : nat) : nat :=
  match indexOf episodes episodeId with
  | Some episodeIndex => (episodeIndex / pageSize + 1)%nat
  | None => currentPage
  end.

End EpisodeList.

(* ===================================================================== *)
(** * The form of the home page ([page.tsx]) *)
(* ===================================================================== *)

(** [s.split('/')] *)
Fixpoint split_slash (s : string) : list string :=
  match s with
  | EmptyString => [""]
  | String c r =>
      if is_slash c then "" :: split_slash r
      else match split_slash r with
           | part :: parts => String c part :: parts
           | [] => [String c ""]
           end
  end.

(** [s] holds no separator. *)
Fixpoint slash_free (s : string) : bool :=
  match s with
  | String c r => negb (is_slash c) && slash_free r
  | EmptyString => true
  end.

Section HomeForm.

(** [String.prototype.trim] *)
Variable trim : string -> string.

(** [handleGo]: the path given to [router.push], if any.  The arguments
    are the values of the two inputs, [None] when an input is not
    mounted. *)
Definition handleGo (repoInput subfolderInput : option string)
  : option string :=
  let repoPath := option_map trim repoInput in
  let subfolder := option_map trim subfolderInput in
  match repoPath with
  | Some repoPath =>
      if truthy_string repoPath then
        let parts := split_slash repoPath in
        if (2 <=? length parts)%nat
           && truthy_string (nth 0 parts "")
           && truthy_string (nth 1 parts "")
        then
          let path := repoPath in
          let path :=
            match subfolder with
            | Some subfolder =>
                if truthy_string subfolder then path ++ "/" ++ subfolder
                else path
            | None => path
            end in
          let path := path ++ "/episode_0" in
          Some path
        else None
      else None
  | None => None
  end.

End HomeForm.

(* ===================================================================== *)
(** * Facts about strings and separators *)
(* ===================================================================== *)

Lemma append_empty_r (s : string) : s ++ "" = s.
Proof. induction s as [|c r IH]; simpl; [reflexivity | now rewrite IH]. Qed.

Lemma append_associative (s t u : string) : (s ++ t) ++ u = s ++ t ++ u.
Proof. induction s as [|c r IH]; simpl; [reflexivity | now rewrite IH]. Qed.

Lemma rev_string_append (s t : string) :
  rev_string (s ++ t) = rev_string t ++ rev_string s.
Proof.
  induction s as [|c r IH]; simpl.
  - now rewrite append_empty_r.
  - now rewrite IH, append_associative.
Qed.

Lemma only_slashes_append (s t : string) :
  only_slashes (s ++ t) = only_slashes s && only_slashes t.
Proof.
  induction s as [|c r IH]; simpl; [reflexivity |].
  now rewrite IH, andb_assoc.
Qed.

Lemma only_slashes_rev (s : string) :
  only_slashes (rev_string s) = only_slashes s.
Proof.
  induction s as [|c r IH]; simpl; [reflexivity |].
  rewrite only_slashes_append, IH. simpl.
  now rewrite andb_true_r, andb_comm.
Qed.

Lemma skip_slashes_only (s : string) :
  only_slashes s = true -> skip_slashes s = "".
Proof.
  induction s as [|c r IH]; simpl; [reflexivity |].
  intros H. apply andb_true_iff in H as [Hc Hr]. now rewrite Hc, IH.
Qed.

Lemma skip_slashes_append (s t : string) :
  skip_slashes (s ++ t)
  = if only_slashes s then skip_slashes t else skip_slashes s ++ t.
Proof.
  induction s as [|c r IH]; simpl; [reflexivity |].
  destruct (is_slash c); simpl; [exact IH |].
  reflexivity.
Qed.

Lemma replace_from_only (s : string) :
  only_slashes s = true -> replace_from s = "".
Proof.
  destruct s as [|c r]; simpl; [reflexivity |].
  intros H. now rewrite H.
Qed.

(** The scan for [\/+$] removes the trailing separators and nothing else. *)
Lemma replace_from_strip_trailing (s : string) :
  replace_from s = strip_trailing s.
Proof.
  unfold strip_trailing, strip_leading.
  induction s as [|c r IH]; simpl; [reflexivity |].
  rewrite skip_slashes_append, only_slashes_rev.
  destruct (only_slashes r) eqn:Hr.
  - rewrite andb_true_r. simpl.
    destruct (is_slash c); simpl; [reflexivity |].
    now rewrite (replace_from_only r Hr).
  - rewrite andb_false_r, rev_string_append. simpl. now rewrite IH.
Qed.

Lemma replace_slashes_scan (s : string) :
  replace_slashes s = replace_from (skip_slashes s).
Proof.
  destruct s as [|c r]; simpl; [reflexivity |].
  destruct (is_slash c) eqn:Hc; [reflexivity |].
  simpl. now rewrite Hc.
Qed.

(** The replace of the source strips exactly the leading and trailing
    separators. *)
Lemma replace_slashes_strip (s : string) : replace_slashes s = spec_strip s.
Proof.
  unfold spec_strip, strip_leading.
  now rewrite replace_slashes_scan, replace_from_strip_trailing.
Qed.

Lemma skip_slashes_no_leading (s : string) :
  no_leading_slash (skip_slashes s).
Proof.
  induction s as [|c r IH]; simpl; [exact I |].
  destruct (is_slash c) eqn:Hc; [exact IH | exact Hc].
Qed.

Lemma skip_slashes_fixed (s : string) :
  no_leading_slash s -> skip_slashes s = s.
Proof. destruct s as [|c r]; simpl; [reflexivity | now intros ->]. Qed.

Lemma replace_from_no_leading (s : string) :
  no_leading_slash s -> no_leading_slash (replace_from s).
Proof.
  destruct s as [|c r]; simpl; [exact (fun H => H) |].
  intros Hc. rewrite Hc. simpl. exact Hc.
Qed.

Lemma replace_from_append_slash (s : string) :
  replace_from (s ++ "/") = replace_from s.
Proof.
  induction s as [|c r IH]; simpl; [reflexivity |].
  rewrite only_slashes_append, IH. simpl. now rewrite andb_true_r.
Qed.

Lemma replace_from_idempotent (s : string) :
  replace_from (replace_from s) = replace_from s.
Proof.
  induction s as [|c r IH]; simpl; [reflexivity |].
  destruct (is_slash c && only_slashes r) eqn:H; simpl; [reflexivity |].
  rewrite IH.
  destruct (is_slash c) eqn:Hc; simpl; [| reflexivity].
  simpl in H.
  destruct (only_slashes (replace_from r)) eqn:Ho; [| reflexivity].
  exfalso. clear IH. induction r as [|d r' IHr]; simpl in *; [discriminate |].
  destruct (is_slash d) eqn:Hd; simpl in *.
  - rewrite H in Ho. simpl in Ho. rewrite Hd in Ho. simpl in Ho.
    now apply IHr.
  - rewrite Hd in Ho. discriminate.
Qed.

Lemma append_no_leading (s t : string) :
  truthy_string s = true -> no_leading_slash s -> no_leading_slash (s ++ t).
Proof. destruct s as [|c r]; simpl; [discriminate | now intros _ H]. Qed.

(** Stripping what was stripped and given its single separator back. *)
Lemma replace_slashes_prefix (s : string) :
  replace_slashes (replace_slashes s ++ "/") = replace_slashes s.
Proof.
  rewrite !replace_slashes_scan.
  set (x := skip_slashes s).
  assert (Hx : no_leading_slash (replace_from x))
    by (apply replace_from_no_leading, skip_slashes_no_leading).
  destruct (replace_from x) as [|c r] eqn:E; [reflexivity |].
  rewrite skip_slashes_fixed by (now apply append_no_leading).
  rewrite <- E, replace_from_append_slash. apply replace_from_idempotent.
Qed.

Lemma truthy_append_slash (s : string) : truthy_string (s ++ "/") = true.
Proof. destruct s; reflexivity. Qed.

(* ===================================================================== *)
(** * The retry loop *)
(* ===================================================================== *)

Section Fetching.
Variable network : nat -> request -> fetch_outcome.

Lemma retry_loop_exhausted rq lastError tr :
  retry_loop network rq 2 lastError tr = (tr, Normal (None, lastError)).
Proof. simp retry_loop. reflexivity. Qed.

(** The second attempt is the last: whatever fails it ends the loop. *)
Lemma retry_loop_second rq lastError tr :
  retry_loop network rq 1 lastError tr
  = ((tr ++ [EvFetch rq])%list,
     match network (fetch_count tr) rq with
     | Resolved r => Normal (Some r, lastError)
     | Rejected err => Normal (None, err)
     end).
Proof.
  simp retry_loop. cbn. unfold try_catch, bind, fetch, ret.
  destruct (network (fetch_count tr) rq) as [r|err]; [reflexivity |].
  destruct (is_AbortError err); [reflexivity |].
  cbn. apply retry_loop_exhausted.
Qed.

Lemma retry_loop_first rq lastError tr :
  retry_loop network rq 0 lastError tr
  = match network (fetch_count tr) rq with
    | Resolved r => ((tr ++ [EvFetch rq])%list, Normal (Some r, lastError))
    | Rejected err =>
        if is_AbortError err
        then ((tr ++ [EvFetch rq])%list, Normal (None, err))
        else retry_loop network rq 1 err
               ((tr ++ [EvFetch rq]) ++ [EvWait (300 * 1)])%list
    end.
Proof.
  simp retry_loop. cbn. unfold try_catch, bind, fetch, ret.
  destruct (network (fetch_count tr) rq) as [r|err]; [reflexivity |].
  destruct (is_AbortError err); reflexivity.
Qed.

(** The loop as [getDatasetInfo] runs it, by the answers of the transport. *)
Lemma retry_loop_run rq :
  retry_loop network rq 0 null [EvSetAbortTimer 10000]
  = match network 0 rq with
    | Resolved r =>
        ([EvSetAbortTimer 10000; EvFetch rq], Normal (Some r, null))
    | Rejected err =>
        if is_AbortError err
        then ([EvSetAbortTimer 10000; EvFetch rq], Normal (None, err))
        else ([EvSetAbortTimer 10000; EvFetch rq; EvWait (300 * 1); EvFetch rq],
              match network 1 rq with
              | Resolved r => Normal (Some r, err)
              | Rejected err' => Normal (None, err')
              end)
    end.
Proof.
  rewrite retry_loop_first.
  change (fetch_count [EvSetAbortTimer 10000]) with 0.
  destruct (network 0 rq) as [r|err]; [reflexivity |].
  destruct (is_AbortError err); [reflexivity |].
  rewrite retry_loop_second. reflexivity.
Qed.

(** The loop never throws and issues one or two requests. *)
Lemma retry_loop_total rq :
  exists tr response lastError,
    retry_loop network rq 0 null [EvSetAbortTimer 10000]
    = (tr, Normal (response, lastError))
    /\ 1 <= fetch_count tr <= maxAttempts.
Proof.
  rewrite retry_loop_run. unfold maxAttempts.
  destruct (network 0 rq) as [r|err].
  - eexists _, _, _. split; [reflexivity |]. cbn. lia.
  - destruct (is_AbortError err).
    + eexists _, _, _. split; [reflexivity |]. cbn. lia.
    + destruct (network 1 rq); eexists _, _, _;
        (split; [reflexivity |]); cbn; lia.
Qed.

(** ** [getDatasetInfo], by what the loop leaves *)

Lemma getDatasetInfo_try_run env repoId basePath :
  getDatasetInfo_try network env repoId basePath []
  = match retry_loop network (info_request env repoId basePath) 0 null
            [EvSetAbortTimer 10000] with
    | (tr, Normal (Some r, _)) =>
        ((tr ++ [EvClearAbortTimer])%list,
         response_completion env repoId basePath r)
    | (tr, Normal (None, lastError)) =>
        ((tr ++ [EvClearAbortTimer])%list,
         Throw (if truthy lastError then lastError
                else VError (new_Error
                       "Unknown network error while fetching dataset info")))
    | (tr, Throw v) => (tr, Throw v)
    end.
Proof.
  unfold getDatasetInfo_try, bind, emit. cbn [app].
  destruct (retry_loop network (info_request env repoId basePath) 0 null
              [EvSetAbortTimer 10000]) as [tr [[[r|] lastError]|v]];
    [| | reflexivity].
  - unfold response_completion, lift, throw, ret.
    destruct (negb (resp_ok r)).
    + destruct ((resp_status r =? 401)%nat || (resp_status r =? 403)%nat);
        reflexivity.
    + destruct (resp_json r) as [data|v]; [| reflexivity].
      destruct (get_prop (VData data) "features") as [features|v];
        [| reflexivity].
      destruct (negb (truthy features)); reflexivity.
  - unfold throw. destruct (truthy lastError); reflexivity.
Qed.

Lemma getDatasetInfo_run env repoId basePath :
  getDatasetInfo network env repoId basePath []
  = (fst (getDatasetInfo_try network env repoId (default_arg basePath "") []),
     caught repoId
       (snd (getDatasetInfo_try network env repoId (default_arg basePath "") []))).
Proof.
  unfold getDatasetInfo, try_catch, rethrow_or_incompatible, caught, throw.
  destruct (getDatasetInfo_try network env repoId (default_arg basePath "") [])
    as [tr [d|v]]; [reflexivity |].
  cbn [fst snd]. destruct (instanceof_Error v); reflexivity.
Qed.

(** A response that arrives is settled by [response_completion]. *)
Lemma getDatasetInfo_answered env repoId basePath r :
  answered network (info_request env repoId (default_arg basePath "")) r ->
  result (getDatasetInfo network env repoId basePath)
  = caught repoId (response_completion env repoId (default_arg basePath "") r).
Proof.
  intros H. unfold result.
  rewrite getDatasetInfo_run, getDatasetInfo_try_run, retry_loop_run. cbn [snd].
  destruct H as [H | (err & H0 & Habort & H1)].
  - now rewrite H.
  - now rewrite H0, Habort, H1.
Qed.

(** The first thing [getDatasetInfo] does is to arm the abort timer and
    to request [info_request]. *)
Lemma getDatasetInfo_first_request env repoId basePath :
  exists rest,
    events (getDatasetInfo network env repoId basePath)
    = EvSetAbortTimer 10000
      :: EvFetch (info_request env repoId (default_arg basePath ""))
      :: rest.
Proof.
  unfold events.
  rewrite getDatasetInfo_run, getDatasetInfo_try_run, retry_loop_run.
  destruct (network 0 _) as [r|err]; [now eexists |].
  destruct (is_AbortError err); [now eexists |].
  destruct (network 1 _); now eexists.
Qed.

End Fetching.

Lemma lookup_absent key fields :
  has_field (JObj fields) key = false -> lookup key fields = VUndefined.
Proof.
  induction fields as [|[k j] rest IH]; cbn; [reflexivity |].
  destruct (String.eqb k key); cbn; [discriminate | exact IH].
Qed.

Lemma lookup_present key fields :
  lookup key fields <> VUndefined -> has_field (JObj fields) key = true.
Proof.
  intros H. destruct (has_field (JObj fields) key) eqn:E; [reflexivity |].
  now apply lookup_absent in E.
Qed.

Lemma is_AbortError_error e :
  is_AbortError (VError e) = String.eqb (err_name e) "AbortError".
Proof. reflexivity. Qed.

(** [getDatasetVersion], by the completion of [getDatasetInfo]. *)
Lemma getDatasetVersion_run number_to_string network env repoId basePath :
  result (getDatasetVersion number_to_string network env repoId basePath)
  = caught repoId
      match result (getDatasetInfo network env repoId basePath) with
      | Throw v => Throw v
      | Normal datasetInfo =>
          match get_prop (VData datasetInfo) "codebase_version" with
          | Throw v => Throw v
          | Normal codebaseVersion =>
              if negb (truthy codebaseVersion) then
                Throw (VError (new_Error missing_version_message))
              else if negb (includes supportedVersions codebaseVersion) then
                match unsupported_version_message number_to_string repoId
                        codebaseVersion with
                | Throw thrown => Throw thrown
                | Normal message => Throw (VError (new_Error message))
                end
              else Normal codebaseVersion
          end
      end.
Proof.
  unfold result, getDatasetVersion, getDatasetVersion_try, try_catch, bind.
  replace (getDatasetInfo network env repoId (Some (default_arg basePath "")))
    with (getDatasetInfo network env repoId basePath)
    by (destruct basePath; reflexivity).
  destruct (getDatasetInfo network env repoId basePath []) as [tr [d|v]];
    cbn [snd caught].
  - unfold lift, throw, ret, rethrow_or_incompatible.
    destruct (get_prop (VData d) "codebase_version") as [cv|v].
    + destruct (negb (truthy cv)); [reflexivity |].
      destruct (negb (includes supportedVersions cv)); [| reflexivity].
      destruct (unsupported_version_message number_to_string repoId cv)
        as [message|v]; [reflexivity |].
      unfold throw, caught. destruct (instanceof_Error v); reflexivity.
    + unfold throw, caught. destruct (instanceof_Error v); reflexivity.
  - unfold rethrow_or_incompatible, throw.
    destruct (instanceof_Error v); reflexivity.
Qed.

(** An error thrown by [getDatasetInfo] reaches the caller of
    [getDatasetVersion] as it is. *)
Lemma getDatasetVersion_rethrows number_to_string network env repoId basePath e :
  result (getDatasetInfo network env repoId basePath) = Throw (VError e) ->
  result (getDatasetVersion number_to_string network env repoId basePath)
  = Throw (VError e).
Proof. intros H. rewrite getDatasetVersion_run, H. reflexivity. Qed.

(** What [getDatasetInfo] returns is an object with a truthy [features]. *)
Lemma getDatasetInfo_returns network env repoId basePath d :
  result (getDatasetInfo network env repoId basePath) = Normal d ->
  exists fields, d = JObj fields /\ truthy (lookup "features" fields) = true.
Proof.
  unfold result. rewrite getDatasetInfo_run, getDatasetInfo_try_run.
  destruct (retry_loop network _ 0 null [EvSetAbortTimer 10000])
    as [tr [[[r|] lastError]|v]]; cbn [snd caught].
  - unfold response_completion.
    destruct (negb (resp_ok r)).
    { destruct ((resp_status r =? 401)%nat || (resp_status r =? 403)%nat);
        discriminate. }
    destruct (resp_json r) as [data|v].
    2:{ cbn. destruct (instanceof_Error v); discriminate. }
    destruct (get_prop (VData data) "features") as [features|v] eqn:G.
    2:{ cbn. destruct (instanceof_Error v); discriminate. }
    destruct (truthy features) eqn:T; cbn; [| discriminate].
    intros [= <-].
    destruct data as [| | | | |fields]; cbn in G;
      try (injection G as <-; discriminate); try discriminate.
    injection G as <-. now exists fields.
  - destruct (truthy lastError); cbn.
    + destruct (instanceof_Error lastError); discriminate.
    + discriminate.
  - destruct (instanceof_Error v); discriminate.
Qed.

(* ===================================================================== *)
(** * Properties of [buildVersionedUrl] *)
(* ===================================================================== *)

(** C2. With an empty base path (omitted, or passed as the empty string)
    [buildVersionedUrl] returns [{host}/{repoId}/resolve/main/{path}] for
    every repository identifier, version and relative path; with the
    default host, repository "lerobot/pusht", version "v2.1" and path
    "meta/info.json" that is
    "https://huggingface.co/datasets/lerobot/pusht/resolve/main/meta/info.json". *)
Theorem buildVersionedUrl_empty_prefix :
  (forall env repoId version path,
      buildVersionedUrl env repoId version path None
      = DATASET_URL env ++ "/" ++ repoId ++ "/resolve/main/" ++ path
      /\ buildVersionedUrl env repoId version path (Some "")
         = DATASET_URL env ++ "/" ++ repoId ++ "/resolve/main/" ++ path)
  /\ DATASET_URL empty_environment = "https://huggingface.co/datasets"
  /\ buildVersionedUrl empty_environment "lerobot/pusht" "v2.1"
       "meta/info.json" (Some "")
     = "https://huggingface.co/datasets/lerobot/pusht/resolve/main/meta/info.json".
Proof.
  split; [| split; reflexivity].
  intros env repoId version path. split; reflexivity.
Qed.

(** C3, as stated, fails: for the base path "/" the stripped result is
    empty, so the normal form of the specification is the empty prefix, but
    the code inserts "/" (and the URL gets a doubled separator). *)
Lemma prefix_of_slash_counterexample :
  spec_strip "/" = ""
  /\ spec_normalize "/" = ""
  /\ prefix_of "/" = "/"
  /\ prefix_of "/" <> spec_normalize "/"
  /\ buildVersionedUrl empty_environment "lerobot/pusht" "v2.1"
       "meta/info.json" (Some "/")
     = "https://huggingface.co/datasets/lerobot/pusht/resolve/main//meta/info.json".
Proof. repeat split; try reflexivity. discriminate. Qed.

(** C3, amended.  For every base path the prefix inserted into the URL, by
    [buildVersionedUrl] and by [getDatasetInfo] alike, is the input with all
    leading and trailing separators stripped followed by a single separator
    when the input is non-empty, and the empty string when the input is
    empty.  It is the normal form of the specification except for a
    non-empty input made of separators only, where it is "/". *)
Theorem prefix_of_normalized :
  forall network env repoId version path basePath,
    prefix_of basePath
    = (if truthy_string basePath then spec_strip basePath ++ "/" else "")
    /\ prefix_of basePath
       = (if truthy_string basePath && negb (truthy_string (spec_strip basePath))
          then "/" else spec_normalize basePath)
    /\ buildVersionedUrl env repoId version path (Some basePath)
       = DATASET_URL env ++ "/" ++ repoId ++ "/resolve/main/"
         ++ (if truthy_string basePath then spec_strip basePath ++ "/" else "")
         ++ path
    /\ req_url (info_request env repoId basePath)
       = DATASET_URL env ++ "/" ++ repoId ++ "/resolve/main/"
         ++ (if truthy_string basePath then spec_strip basePath ++ "/" else "")
         ++ "meta/info.json"
    /\ exists rest,
         events (getDatasetInfo network env repoId (Some basePath))
         = EvSetAbortTimer 10000
           :: EvFetch (info_request env repoId basePath) :: rest.
Proof.
  intros network env repoId version path basePath.
  assert (E : prefix_of basePath
              = if truthy_string basePath then spec_strip basePath ++ "/"
                else "").
  { unfold prefix_of.
    destruct (truthy_string basePath); [| reflexivity].
    now rewrite replace_slashes_strip. }
  repeat split.
  - exact E.
  - rewrite E. unfold spec_normalize.
    destruct (truthy_string basePath) eqn:Hb; simpl.
    + now destruct (spec_strip basePath).
    + destruct basePath; [reflexivity | discriminate].
  - unfold buildVersionedUrl. simpl. now rewrite E.
  - simpl. unfold info_url. now rewrite E.
  - apply (getDatasetInfo_first_request network env repoId (Some basePath)).
Qed.

(** C8. Normalizing a normalized prefix changes nothing, and "/a/b/",
    "a/b/" and "a/b" all normalize to "a/b/". *)
Theorem prefix_of_idempotent :
  (forall basePath, prefix_of (prefix_of basePath) = prefix_of basePath)
  /\ prefix_of "/a/b/" = "a/b/"
  /\ prefix_of "a/b/" = "a/b/"
  /\ prefix_of "a/b" = "a/b/".
Proof.
  split; [| repeat split; reflexivity].
  intros basePath. unfold prefix_of at 2 3.
  destruct (truthy_string basePath); [| reflexivity].
  unfold prefix_of. rewrite truthy_append_slash.
  now rewrite replace_slashes_prefix.
Qed.

(** C9. [buildVersionedUrl] does not depend on its version argument: for
    every environment, repository identifier, relative path and base path
    and any two version strings, both calls return the same string.  Being
    a function of its arguments and of the configured host only, equal
    inputs give equal outputs. *)
Theorem buildVersionedUrl_version_independent :
  forall env repoId v1 v2 path basePath,
    buildVersionedUrl env repoId v1 path basePath
    = buildVersionedUrl env repoId v2 path basePath.
Proof. intros. unfold buildVersionedUrl. reflexivity. Qed.

(* ===================================================================== *)
(** * Properties of [getDatasetInfo] *)
(* ===================================================================== *)

(** C4. When both requests fail with a transport fault that is not the
    cancellation, [getDatasetInfo] issues exactly two requests, waits once,
    [300 * 1] ms, between the first and the second, and throws the error
    of the second. *)
Theorem getDatasetInfo_retries_once :
  forall network env repoId basePath e1 e2,
    transport_fault
      (network 0 (info_request env repoId (default_arg basePath ""))) e1 ->
    transport_fault
      (network 1 (info_request env repoId (default_arg basePath ""))) e2 ->
    events (getDatasetInfo network env repoId basePath)
    = [EvSetAbortTimer 10000;
       EvFetch (info_request env repoId (default_arg basePath ""));
       EvWait (300 * 1);
       EvFetch (info_request env repoId (default_arg basePath ""));
       EvClearAbortTimer]
    /\ fetch_count (events (getDatasetInfo network env repoId basePath)) = 2
    /\ waits (events (getDatasetInfo network env repoId basePath)) = [300 * 1]
    /\ result (getDatasetInfo network env repoId basePath) = Throw (VError e2).
Proof.
  intros network env repoId basePath e1 e2 [H1 N1] [H2 _].
  assert (E : getDatasetInfo network env repoId basePath []
              = ([EvSetAbortTimer 10000;
                  EvFetch (info_request env repoId (default_arg basePath ""));
                  EvWait (300 * 1);
                  EvFetch (info_request env repoId (default_arg basePath ""));
                  EvClearAbortTimer],
                 Throw (VError e2))).
  { rewrite getDatasetInfo_run, getDatasetInfo_try_run, retry_loop_run.
    rewrite H1, is_AbortError_error.
    apply String.eqb_neq in N1. rewrite N1, H2. reflexivity. }
  unfold events, result. rewrite E. repeat split.
Qed.

(** C5. When the first request is cancelled, [getDatasetInfo] issues no
    second request and throws the cancellation error itself. *)
Theorem getDatasetInfo_no_retry_after_abort :
  forall network env repoId basePath e,
    cancelled
      (network 0 (info_request env repoId (default_arg basePath ""))) e ->
    events (getDatasetInfo network env repoId basePath)
    = [EvSetAbortTimer 10000;
       EvFetch (info_request env repoId (default_arg basePath ""));
       EvClearAbortTimer]
    /\ fetch_count (events (getDatasetInfo network env repoId basePath)) = 1
    /\ result (getDatasetInfo network env repoId basePath) = Throw (VError e).
Proof.
  intros network env repoId basePath e [H N].
  assert (E : getDatasetInfo network env repoId basePath []
              = ([EvSetAbortTimer 10000;
                  EvFetch (info_request env repoId (default_arg basePath ""));
                  EvClearAbortTimer],
                 Throw (VError e))).
  { rewrite getDatasetInfo_run, getDatasetInfo_try_run, retry_loop_run.
    rewrite H, is_AbortError_error, N. reflexivity. }
  unfold events, result. rewrite E. repeat split.
Qed.

(** C6. A response with a non-success status makes [getDatasetInfo] throw:
    for 401 and 403 the access-denied error, whose message holds the
    repository identifier, the URL tried and the hint that the dataset may
    be private or gated, and is not the generic message; for any other
    status the generic error with the status code. *)
Theorem getDatasetInfo_http_failure :
  forall network env repoId basePath r,
    answered network (info_request env repoId (default_arg basePath "")) r ->
    resp_ok r = false ->
    ((resp_status r = 401 \/ resp_status r = 403) ->
       result (getDatasetInfo network env repoId basePath)
       = Throw (VError (new_Error
           (access_denied_message (resp_status r) repoId
              (req_url (info_request env repoId (default_arg basePath ""))))))
       /\ contains repoId
            (access_denied_message (resp_status r) repoId
               (req_url (info_request env repoId (default_arg basePath ""))))
       /\ contains (req_url (info_request env repoId (default_arg basePath "")))
            (access_denied_message (resp_status r) repoId
               (req_url (info_request env repoId (default_arg basePath ""))))
       /\ contains "may be private or gated"
            (access_denied_message (resp_status r) repoId
               (req_url (info_request env repoId (default_arg basePath ""))))
       /\ access_denied_message (resp_status r) repoId
            (req_url (info_request env repoId (default_arg basePath "")))
          <> fetch_failed_message (resp_status r))
    /\ (resp_status r <> 401 -> resp_status r <> 403 ->
        result (getDatasetInfo network env repoId basePath)
        = Throw (VError (new_Error (fetch_failed_message (resp_status r))))
        /\ fetch_failed_message (resp_status r)
           = "Failed to fetch dataset info: " ++ decimal (resp_status r)).
Proof.
  intros network env repoId basePath r Hr Hok.
  rewrite (getDatasetInfo_answered network env repoId basePath r Hr).
  unfold response_completion. rewrite Hok. cbn [negb req_url info_request].
  split.
  - intros Hs.
    assert (Hb : (resp_status r =? 401)%nat || (resp_status r =? 403)%nat = true).
    { destruct Hs as [-> | ->]; reflexivity. }
    rewrite Hb. split; [reflexivity |].
    unfold access_denied_message. repeat split.
    + exists ("Failed to fetch dataset info: " ++ decimal (resp_status r)
              ++ ". " ++ "The dataset "),
             (" may be private or gated. "
              ++ "If it's private, set an access token via HF_TOKEN env variable. "
              ++ "URL tried: "
              ++ info_url env repoId (default_arg basePath "")).
      rewrite !append_associative. reflexivity.
    + exists ("Failed to fetch dataset info: " ++ decimal (resp_status r)
              ++ ". " ++ "The dataset " ++ repoId ++ " may be private or gated. "
              ++ "If it's private, set an access token via HF_TOKEN env variable. "
              ++ "URL tried: "), "".
      rewrite append_empty_r, !append_associative. reflexivity.
    + exists ("Failed to fetch dataset info: " ++ decimal (resp_status r)
              ++ ". " ++ "The dataset " ++ repoId ++ " "),
             (". " ++ "If it's private, set an access token via HF_TOKEN env variable. "
              ++ "URL tried: "
              ++ info_url env repoId (default_arg basePath "")).
      rewrite !append_associative. reflexivity.
    + unfold fetch_failed_message.
      destruct Hs as [-> | ->]; cbn; discriminate.
  - intros N1 N3.
    apply Nat.eqb_neq in N1, N3. rewrite N1, N3. cbn [orb caught instanceof_Error].
    split; reflexivity.
Qed.

(** C7. The check of the required structure misses the body [null]: the
    body parses and has no "features" field, but reading [data.features]
    throws a [TypeError], which [getDatasetInfo] and [getDatasetVersion]
    pass on in place of the malformed-descriptor error.  Every other kind
    of body without the field (an empty object, an array, a string, a
    number, a boolean) gets the malformed-descriptor error. *)
Theorem getDatasetInfo_null_body :
  answered (respond_with 200 JNull)
    (info_request empty_environment "lerobot/pusht" "")
    {| resp_status := 200; resp_json := Normal JNull |}
  /\ resp_ok {| resp_status := 200; resp_json := Normal JNull |} = true
  /\ has_field JNull "features" = false
  /\ result (getDatasetInfo (respond_with 200 JNull) empty_environment
               "lerobot/pusht" None)
     = Throw (VError
         {| err_name := "TypeError";
            err_message := "Cannot read properties of null (reading 'features')" |})
  /\ result (getDatasetVersion print_ten (respond_with 200 JNull)
               empty_environment "lerobot/pusht" None)
     = Throw (VError
         {| err_name := "TypeError";
            err_message := "Cannot read properties of null (reading 'features')" |})
  /\ result (getDatasetInfo (respond_with 200 JNull) empty_environment
               "lerobot/pusht" None)
     <> Throw (VError (new_Error malformed_message))
  /\ result (getDatasetInfo (respond_with 200 (JObj [])) empty_environment
               "lerobot/pusht" None)
     = Throw (VError (new_Error malformed_message))
  /\ result (getDatasetInfo (respond_with 200 (JArr [])) empty_environment
               "lerobot/pusht" None)
     = Throw (VError (new_Error malformed_message))
  /\ result (getDatasetInfo (respond_with 200 (JStr "abc")) empty_environment
               "lerobot/pusht" None)
     = Throw (VError (new_Error malformed_message))
  /\ result (getDatasetInfo (respond_with 200 (JNum 5%float))
               empty_environment "lerobot/pusht" None)
     = Throw (VError (new_Error malformed_message))
  /\ result (getDatasetInfo (respond_with 200 (JBool true)) empty_environment
               "lerobot/pusht" None)
     = Throw (VError (new_Error malformed_message)).
Proof.
  repeat split; try reflexivity.
  - now left.
  - vm_compute. discriminate.
Qed.

(** The check on every parsed body but [null]: when such a body has no
    top-level "features" field, [getDatasetInfo] throws the
    malformed-descriptor error, and [getDatasetVersion] throws that same
    error whatever the body holds otherwise: [codebase_version] is not
    looked at. *)
Theorem getDatasetInfo_missing_features :
  forall number_to_string network env repoId basePath r data,
    answered network (info_request env repoId (default_arg basePath "")) r ->
    resp_ok r = true ->
    resp_json r = Normal data ->
    data <> JNull ->
    has_field data "features" = false ->
    result (getDatasetInfo network env repoId basePath)
    = Throw (VError (new_Error malformed_message))
    /\ result (getDatasetVersion number_to_string network env repoId basePath)
       = Throw (VError (new_Error malformed_message)).
Proof.
  intros nts network env repoId basePath r data Hr Hok Hj Hnull Hf.
  assert (E : result (getDatasetInfo network env repoId basePath)
              = Throw (VError (new_Error malformed_message))).
  { rewrite (getDatasetInfo_answered network env repoId basePath r Hr).
    unfold response_completion. rewrite Hok, Hj. cbn [negb].
    destruct data as [| | | | |fields]; try reflexivity.
    - now contradiction Hnull.
    - cbn [get_prop]. now rewrite (lookup_absent _ _ Hf). }
  split; [exact E |].
  now apply getDatasetVersion_rethrows.
Qed.

(** C10. The check of "features" is a truthiness test: when the field is
    there but holds [null], [false], [0] or the empty string,
    [getDatasetInfo] throws the malformed-descriptor error, the one it
    throws when the field is absent. *)
Theorem getDatasetInfo_falsy_features :
  forall network env repoId basePath r fields,
    answered network (info_request env repoId (default_arg basePath "")) r ->
    resp_ok r = true ->
    resp_json r = Normal (JObj fields) ->
    has_field (JObj fields) "features" = true ->
    (field (JObj fields) "features" = VData JNull
     \/ field (JObj fields) "features" = VData (JBool false)
     \/ field (JObj fields) "features" = VData (JNum 0%float)
     \/ field (JObj fields) "features" = VData (JStr "")) ->
    result (getDatasetInfo network env repoId basePath)
    = Throw (VError (new_Error malformed_message)).
Proof.
  intros network env repoId basePath r fields Hr Hok Hj _ Hv.
  rewrite (getDatasetInfo_answered network env repoId basePath r Hr).
  unfold response_completion. rewrite Hok, Hj. cbn [negb get_prop].
  cbn [field] in Hv.
  destruct Hv as [-> | [-> | [-> | ->]]]; reflexivity.
Qed.

(* ===================================================================== *)
(** * Properties of [getDatasetVersion] *)
(* ===================================================================== *)

Lemma includes_supported (v : value) :
  includes supportedVersions v = true
  <-> exists s, v = VData (JStr s) /\ In s supportedVersions.
Proof.
  unfold includes. rewrite existsb_exists. split.
  - intros (s & Hin & Heq).
    destruct v as [|[| | |t| |]|]; try discriminate.
    apply String.eqb_eq in Heq. subst t. now exists s.
  - intros (s & -> & Hin). exists s. split; [exact Hin |].
    apply String.eqb_refl.
Qed.

(** C1. Once [getDatasetInfo] has returned a descriptor (which then has
    its "features" field), [getDatasetVersion] returns if and only if the
    descriptor's [codebase_version] is one of "v3.0", "v2.1", "v2.0", and
    then returns that very string; it throws the missing-version error when
    the field is absent or the empty string, and for any other non-empty
    string the unsupported-version error, whose message names the
    repository, that string and the supported versions. *)
Theorem getDatasetVersion_allowlist :
  forall number_to_string network env repoId basePath d,
    result (getDatasetInfo network env repoId basePath) = Normal d ->
    has_field d "features" = true
    /\ ((exists v,
           result (getDatasetVersion number_to_string network env repoId basePath)
           = Normal v)
        <-> exists s, field d "codebase_version" = VData (JStr s)
                      /\ In s ["v3.0"; "v2.1"; "v2.0"])
    /\ (forall s,
          field d "codebase_version" = VData (JStr s) ->
          In s ["v3.0"; "v2.1"; "v2.0"] ->
          result (getDatasetVersion number_to_string network env repoId basePath)
          = Normal (VData (JStr s)))
    /\ (has_field d "codebase_version" = false
        \/ field d "codebase_version" = VData (JStr "") ->
        result (getDatasetVersion number_to_string network env repoId basePath)
        = Throw (VError (new_Error
            "Dataset info.json does not contain codebase_version")))
    /\ (forall s,
          field d "codebase_version" = VData (JStr s) ->
          s <> "" ->
          ~ In s ["v3.0"; "v2.1"; "v2.0"] ->
          result (getDatasetVersion number_to_string network env repoId basePath)
          = Throw (VError (new_Error
              ("Dataset " ++ repoId ++ " has codebase version " ++ s
               ++ ", which is not supported. "
               ++ "This tool only works with dataset versions 3.0, 2.1, or 2.0. "
               ++ "Please use a compatible dataset version.")))).
Proof.
  intros nts network env repoId basePath d Hd.
  destruct (getDatasetInfo_returns network env repoId basePath d Hd)
    as (fields & -> & Hfeat).
  rewrite getDatasetVersion_run, Hd. cbn [get_prop field].
  set (cv := lookup "codebase_version" fields).
  split.
  { apply lookup_present. intros E. rewrite E in Hfeat. discriminate. }
  assert (Hin : forall s, cv = VData (JStr s) -> In s supportedVersions ->
                          includes supportedVersions cv = true).
  { intros s E Hs. apply includes_supported. now exists s. }
  assert (Htruthy : forall s, In s supportedVersions -> truthy_string s = true).
  { intros s [<- | [<- | [<- | []]]]; reflexivity. }
  repeat split.
  - intros [v Hv].
    destruct (truthy cv) eqn:T; cbn [negb] in Hv; [| discriminate].
    destruct (includes supportedVersions cv) eqn:I; cbn [negb] in Hv.
    + now apply includes_supported.
    + destruct (unsupported_version_message nts repoId cv) as [message|thrown];
        cbn [caught] in Hv; [discriminate |].
      destruct (instanceof_Error thrown); discriminate.
  - intros (s & E & Hs). exists cv.
    rewrite (Hin s E Hs). rewrite E. cbn [truthy].
    now rewrite (Htruthy s Hs).
  - intros s E Hs. rewrite (Hin s E Hs). rewrite E. cbn [truthy].
    now rewrite (Htruthy s Hs).
  - intros [Habsent | E].
    + subst cv. now rewrite (lookup_absent _ _ Habsent).
    + now rewrite E.
  - intros s E Hne Hnot. rewrite E. cbn [truthy].
    destruct s as [|c s']; [now contradiction Hne |]. cbn [truthy_string negb].
    destruct (includes supportedVersions (VData (JStr (String c s')))) eqn:I.
    + apply includes_supported in I as (t & [= <-] & Ht). now contradiction Hnot.
    + reflexivity.
Qed.

(* ===================================================================== *)
(** * The theorems at the samples *)
(* ===================================================================== *)

Lemma getDatasetVersion_allowlist_witness :
  result (getDatasetInfo (respond_with 200 pusht_info) empty_environment
            "lerobot/pusht" (Some ""))
  = Normal pusht_info
  /\ result (getDatasetVersion print_ten (respond_with 200 pusht_info)
               empty_environment "lerobot/pusht" (Some ""))
     = Normal (VData (JStr "v2.1")).
Proof.
  split; [reflexivity |].
  apply (getDatasetVersion_allowlist print_ten
           (respond_with 200 pusht_info) empty_environment "lerobot/pusht"
           (Some "") pusht_info eq_refl).
  - reflexivity.
  - right. left. reflexivity.
Defined.

Lemma getDatasetInfo_retries_once_witness :
  transport_fault
    (reject_with connection_refused 0
       (info_request empty_environment "lerobot/pusht" ""))
    connection_refused
  /\ fetch_count (events (getDatasetInfo (reject_with connection_refused)
                            empty_environment "lerobot/pusht" None)) = 2
  /\ result (getDatasetInfo (reject_with connection_refused)
               empty_environment "lerobot/pusht" None)
     = Throw (VError connection_refused).
Proof.
  assert (H : forall n,
             transport_fault
               (reject_with connection_refused n
                  (info_request empty_environment "lerobot/pusht" ""))
               connection_refused)
    by (intros n; split; [reflexivity | discriminate]).
  split; [exact (H 0) |].
  destruct (getDatasetInfo_retries_once (reject_with connection_refused)
              empty_environment "lerobot/pusht" None
              connection_refused connection_refused (H 0) (H 1))
    as (_ & Hcount & _ & Hresult).
  split; [exact Hcount | exact Hresult].
Defined.

Lemma getDatasetInfo_no_retry_after_abort_witness :
  cancelled
    (reject_with operation_aborted 0
       (info_request empty_environment "lerobot/pusht" ""))
    operation_aborted
  /\ fetch_count (events (getDatasetInfo (reject_with operation_aborted)
                            empty_environment "lerobot/pusht" None)) = 1
  /\ result (getDatasetInfo (reject_with operation_aborted)
               empty_environment "lerobot/pusht" None)
     = Throw (VError operation_aborted).
Proof.
  assert (H : cancelled
                (reject_with operation_aborted 0
                   (info_request empty_environment "lerobot/pusht" ""))
                operation_aborted)
    by (split; reflexivity).
  split; [exact H |].
  destruct (getDatasetInfo_no_retry_after_abort (reject_with operation_aborted)
              empty_environment "lerobot/pusht" None operation_aborted H)
    as (_ & Hcount & Hresult).
  split; [exact Hcount | exact Hresult].
Defined.

Lemma getDatasetInfo_http_failure_witness :
  answered (respond_with 403 JNull)
    (info_request empty_environment "lerobot/pusht" "")
    {| resp_status := 403; resp_json := Normal JNull |}
  /\ resp_ok {| resp_status := 403; resp_json := Normal JNull |} = false
  /\ result (getDatasetInfo (respond_with 403 JNull) empty_environment
               "lerobot/pusht" None)
     = Throw (VError (new_Error
         ("Failed to fetch dataset info: 403. "
          ++ "The dataset lerobot/pusht may be private or gated. "
          ++ "If it's private, set an access token via HF_TOKEN env variable. "
          ++ "URL tried: https://huggingface.co/datasets/lerobot/pusht/resolve/main/meta/info.json"))).
Proof.
  assert (H : answered (respond_with 403 JNull)
                (info_request empty_environment "lerobot/pusht" "")
                {| resp_status := 403; resp_json := Normal JNull |})
    by (left; reflexivity).
  split; [exact H |]. split; [reflexivity |].
  destruct (getDatasetInfo_http_failure (respond_with 403 JNull)
              empty_environment "lerobot/pusht" None _ H eq_refl)
    as [Hdenied _].
  destruct (Hdenied (or_intror eq_refl)) as [Hresult _].
  exact Hresult.
Defined.

Lemma getDatasetInfo_missing_features_witness :
  answered (respond_with 200 pusht_info_no_features)
    (info_request empty_environment "lerobot/pusht" "")
    {| resp_status := 200; resp_json := Normal pusht_info_no_features |}
  /\ has_field pusht_info_no_features "features" = false
  /\ result (getDatasetVersion print_ten
               (respond_with 200 pusht_info_no_features) empty_environment
               "lerobot/pusht" None)
     = Throw (VError (new_Error
         "Dataset info.json does not have the expected features structure")).
Proof.
  assert (H : answered (respond_with 200 pusht_info_no_features)
                (info_request empty_environment "lerobot/pusht" "")
                {| resp_status := 200;
                   resp_json := Normal pusht_info_no_features |})
    by (left; reflexivity).
  split; [exact H |]. split; [reflexivity |].
  refine (proj2 (getDatasetInfo_missing_features print_ten
                   (respond_with 200 pusht_info_no_features)
                   empty_environment "lerobot/pusht" None _
                   pusht_info_no_features H eq_refl eq_refl _ eq_refl)).
  discriminate.
Defined.

Lemma getDatasetInfo_falsy_features_witness :
  answered (respond_with 200 pusht_info_null_features)
    (info_request empty_environment "lerobot/pusht" "")
    {| resp_status := 200; resp_json := Normal pusht_info_null_features |}
  /\ has_field pusht_info_null_features "features" = true
  /\ field pusht_info_null_features "features" = VData JNull
  /\ result (getDatasetInfo (respond_with 200 pusht_info_null_features)
               empty_environment "lerobot/pusht" None)
     = Throw (VError (new_Error
         "Dataset info.json does not have the expected features structure")).
Proof.
  assert (H : answered (respond_with 200 pusht_info_null_features)
                (info_request empty_environment "lerobot/pusht" "")
                {| resp_status := 200;
                   resp_json := Normal pusht_info_null_features |})
    by (left; reflexivity).
  split; [exact H |]. split; [reflexivity |]. split; [reflexivity |].
  exact (getDatasetInfo_falsy_features
           (respond_with 200 pusht_info_null_features)
           empty_environment "lerobot/pusht" None _
           [("codebase_version", JStr "v2.1"); ("fps", JNum 10%float);
            ("features", JNull)]
           H eq_refl eq_refl eq_refl (or_introl eq_refl)).
Defined.

(* ===================================================================== *)
(** * Further properties of [getDatasetInfo] and [getDatasetVersion] *)
(* ===================================================================== *)

Lemma caught_cases {A} repoId (c : completion A) :
  (exists a, caught repoId c = Normal a)
  \/ (exists e, caught repoId c = Throw (VError e)).
Proof.
  destruct c as [a|[|j|e]]; cbn; eauto.
Qed.

(** X1. Whatever the transport does, a call of [getDatasetInfo] or of
    [getDatasetVersion] either returns or throws an [Error] instance: no
    other thrown value reaches the caller. *)
Theorem only_errors_escape :
  forall number_to_string network env repoId basePath,
    ((exists d, result (getDatasetInfo network env repoId basePath) = Normal d)
     \/ (exists e, result (getDatasetInfo network env repoId basePath)
                   = Throw (VError e)))
    /\ ((exists v,
           result (getDatasetVersion number_to_string network env repoId basePath)
           = Normal v)
        \/ (exists e,
              result (getDatasetVersion number_to_string network env repoId
                        basePath)
              = Throw (VError e))).
Proof.
  intros nts network env repoId basePath. split.
  - unfold result. rewrite getDatasetInfo_run. cbn [snd]. apply caught_cases.
  - rewrite getDatasetVersion_run. apply caught_cases.
Qed.

(** The events of a call of [getDatasetInfo], by the answers of the
    transport. *)
Lemma getDatasetInfo_events network env repoId basePath :
  events (getDatasetInfo network env repoId basePath)
  = match network 0 (info_request env repoId (default_arg basePath "")) with
    | Resolved _ =>
        [EvSetAbortTimer 10000;
         EvFetch (info_request env repoId (default_arg basePath ""));
         EvClearAbortTimer]
    | Rejected err =>
        if is_AbortError err
        then [EvSetAbortTimer 10000;
              EvFetch (info_request env repoId (default_arg basePath ""));
              EvClearAbortTimer]
        else [EvSetAbortTimer 10000;
              EvFetch (info_request env repoId (default_arg basePath ""));
              EvWait (300 * 1);
              EvFetch (info_request env repoId (default_arg basePath ""));
              EvClearAbortTimer]
    end.
Proof.
  unfold events.
  rewrite getDatasetInfo_run, getDatasetInfo_try_run, retry_loop_run.
  cbn [fst].
  destruct (network 0 _) as [r|err]; [reflexivity |].
  destruct (is_AbortError err); [reflexivity |].
  destruct (network 1 _); reflexivity.
Qed.

(** X2. Every call of [getDatasetInfo] arms the abort timer first and
    clears it last, and in between issues the same request once, or twice
    with a single wait of 300 ms in between: there is no third request and
    no other wait, whatever the transport answers. *)
Theorem getDatasetInfo_trace_shapes :
  forall network env repoId basePath,
    events (getDatasetInfo network env repoId basePath)
    = [EvSetAbortTimer 10000;
       EvFetch (info_request env repoId (default_arg basePath ""));
       EvClearAbortTimer]
    \/ events (getDatasetInfo network env repoId basePath)
       = [EvSetAbortTimer 10000;
          EvFetch (info_request env repoId (default_arg basePath ""));
          EvWait 300;
          EvFetch (info_request env repoId (default_arg basePath ""));
          EvClearAbortTimer].
Proof.
  intros network env repoId basePath. rewrite getDatasetInfo_events.
  destruct (network 0 _) as [r|err]; [now left |].
  destruct (is_AbortError err); [now left | now right].
Qed.

(** The result when no response arrives. *)
Lemma getDatasetInfo_rejected network env repoId basePath v :
  last_rejection network
    (info_request env repoId (default_arg basePath "")) v ->
  result (getDatasetInfo network env repoId basePath)
  = caught repoId
      (Throw (if truthy v then v
              else VError (new_Error
                     "Unknown network error while fetching dataset info"))).
Proof.
  intros H. unfold result.
  rewrite getDatasetInfo_run, getDatasetInfo_try_run, retry_loop_run.
  cbn [snd].
  destruct H as [[H Habort] | (first & H0 & Habort & H1)].
  - now rewrite H, Habort.
  - now rewrite H0, Habort, H1.
Qed.

(** X3. When no response arrives and the last rejection is an [Error],
    that error is thrown unchanged: also when it is a cancellation of the
    second request, and when the first request failed with a value that
    is not an [Error]. *)
Theorem getDatasetInfo_last_error_surfaces :
  forall network env repoId basePath e,
    last_rejection network
      (info_request env repoId (default_arg basePath "")) (VError e) ->
    result (getDatasetInfo network env repoId basePath) = Throw (VError e).
Proof.
  intros network env repoId basePath e H.
  now rewrite (getDatasetInfo_rejected _ _ _ _ _ H).
Qed.

(** X4. When no response arrives and the last rejection is not an
    [Error], the caller gets a fresh [Error]: the incompatible-dataset
    message naming the repository when the rejected value is truthy, and
    "Unknown network error while fetching dataset info" when it is falsy
    ([undefined], [null], 0, the empty string). *)
Theorem getDatasetInfo_non_error_rejection :
  forall network env repoId basePath v,
    last_rejection network
      (info_request env repoId (default_arg basePath "")) v ->
    instanceof_Error v = false ->
    result (getDatasetInfo network env repoId basePath)
    = Throw (VError (new_Error
        (if truthy v
         then "Dataset " ++ repoId ++ " is not compatible with this visualizer. "
              ++ "Failed to read dataset information from the main revision."
         else "Unknown network error while fetching dataset info"))).
Proof.
  intros network env repoId basePath v H Hv.
  rewrite (getDatasetInfo_rejected _ _ _ _ _ H).
  destruct (truthy v); cbn [caught]; [now rewrite Hv | reflexivity].
Qed.

(** X5. A first request that fails without being cancelled is invisible
    in the result when the second is answered: the call ends as if the
    response had come at once, after two requests and one wait. *)
Theorem getDatasetInfo_retry_transparent :
  forall network env repoId basePath first r,
    network 0 (info_request env repoId (default_arg basePath ""))
    = Rejected first ->
    is_AbortError first = false ->
    network 1 (info_request env repoId (default_arg basePath ""))
    = Resolved r ->
    result (getDatasetInfo network env repoId basePath)
    = result (getDatasetInfo (fun _ _ => Resolved r) env repoId basePath)
    /\ fetch_count (events (getDatasetInfo network env repoId basePath)) = 2
    /\ waits (events (getDatasetInfo network env repoId basePath)) = [300].
Proof.
  intros network env repoId basePath first r H0 Habort H1.
  split.
  - rewrite (getDatasetInfo_answered network env repoId basePath r)
      by (right; now exists first).
    rewrite (getDatasetInfo_answered (fun _ _ => Resolved r) env repoId
               basePath r) by (now left).
    reflexivity.
  - rewrite getDatasetInfo_events, H0, Habort. split; reflexivity.
Qed.

(** X6. [getDatasetVersion] does no input or output of its own: the
    events of a call are those of the call of [getDatasetInfo] it makes. *)
Theorem getDatasetVersion_same_events :
  forall number_to_string network env repoId basePath,
    events (getDatasetVersion number_to_string network env repoId basePath)
    = events (getDatasetInfo network env repoId basePath).
Proof.
  intros nts network env repoId basePath.
  unfold events, getDatasetVersion, getDatasetVersion_try, try_catch, bind.
  replace (getDatasetInfo network env repoId (Some (default_arg basePath "")))
    with (getDatasetInfo network env repoId basePath)
    by (destruct basePath; reflexivity).
  destruct (getDatasetInfo network env repoId basePath []) as [tr [d|v]];
    cbn [fst].
  - unfold lift, throw, ret, rethrow_or_incompatible.
    destruct (get_prop (VData d) "codebase_version") as [cv|v].
    + destruct (negb (truthy cv)); [reflexivity |].
      destruct (negb (includes supportedVersions cv)); [| reflexivity].
      destruct (unsupported_version_message nts repoId cv) as [message|v];
        [reflexivity |].
      unfold throw. destruct (instanceof_Error v); reflexivity.
    + unfold throw. destruct (instanceof_Error v); reflexivity.
  - unfold rethrow_or_incompatible, throw.
    destruct (instanceof_Error v); reflexivity.
Qed.

(** X7. Whatever the transport answers, a value returned by
    [getDatasetVersion] is one of the strings "v3.0", "v2.1", "v2.0", and
    it is the [codebase_version] of a descriptor that [getDatasetInfo]
    returned. *)
Theorem getDatasetVersion_returns_supported :
  forall number_to_string network env repoId basePath v,
    result (getDatasetVersion number_to_string network env repoId basePath)
    = Normal v ->
    exists s d,
      v = VData (JStr s)
      /\ In s ["v3.0"; "v2.1"; "v2.0"]
      /\ result (getDatasetInfo network env repoId basePath) = Normal d
      /\ field d "codebase_version" = VData (JStr s).
Proof.
  intros nts network env repoId basePath v.
  rewrite getDatasetVersion_run.
  destruct (result (getDatasetInfo network env repoId basePath))
    as [d|thrown] eqn:Hd.
  2:{ cbn. destruct (instanceof_Error thrown); discriminate. }
  destruct (getDatasetInfo_returns network env repoId basePath d Hd)
    as (fields & -> & _).
  cbn [get_prop].
  destruct (truthy (lookup "codebase_version" fields)); cbn [negb];
    [| discriminate].
  destruct (includes supportedVersions (lookup "codebase_version" fields))
    eqn:I; cbn [negb caught].
  2:{ destruct (unsupported_version_message nts repoId
                  (lookup "codebase_version" fields)) as [message|thrown];
        cbn [caught]; [discriminate |].
      destruct (instanceof_Error thrown); discriminate. }
  intros [= <-].
  apply includes_supported in I as (s & E & Hs).
  exists s, (JObj fields). rewrite E. repeat split; [exact Hs | exact E].
Qed.

(** A value that cannot be printed makes the printing throw the
    [TypeError] of the conversion. *)
Lemma json_to_string_throws number_to_string (j : json) thrown :
  json_to_string number_to_string j = Throw thrown ->
  thrown = VError TypeError_primitive.
Proof.
  revert thrown.
  induction j as [| b | x | s | items IH | fields] using
    (fix ind (P : json -> Prop)
         (Hnull : P JNull) (Hbool : forall b, P (JBool b))
         (Hnum : forall x, P (JNum x)) (Hstr : forall s, P (JStr s))
         (Harr : forall items, Forall P items -> P (JArr items))
         (Hobj : forall fields, P (JObj fields)) (j : json) : P j :=
       match j with
       | JNull => Hnull
       | JBool b => Hbool b
       | JNum x => Hnum x
       | JStr s => Hstr s
       | JArr items =>
           Harr items
             ((fix all (l : list json) : Forall P l :=
                 match l with
                 | [] => Forall_nil P
                 | x :: rest =>
                     Forall_cons x
                       (ind P Hnull Hbool Hnum Hstr Harr Hobj x) (all rest)
                 end) items)
       | JObj fields => Hobj fields
       end); intros thrown; try discriminate.
  - cbn [json_to_string].
    induction IH as [|x rest Hx _ IHrest]; [discriminate |].
    destruct (match x with JNull => Normal "" | _ => json_to_string number_to_string x end)
      as [item|t] eqn:Ex.
    + destruct rest as [|y rest']; [discriminate |].
      match goal with
      | |- context [match ?c with Normal _ => _ | Throw _ => _ end] =>
          destruct c as [others|t] eqn:Er
      end; [discriminate |].
      intros [= <-]. now apply IHrest.
    + intros [= <-]. destruct x; try discriminate; now apply Hx.
  - cbn [json_to_string]. destruct (has_field (JObj fields) "toString");
      [now intros [= <-] | discriminate].
Qed.

(** X8. A [codebase_version] that is not a string is never accepted: a
    falsy one ([null], [false], 0) gives the missing-version error; a
    truthy one (the number 2.1, [true], an array, an object) gives the
    unsupported-version error with the value printed as a template literal
    prints it, or, when the value cannot be printed (an object with an own
    "toString" property, or an array holding one), the [TypeError] of the
    conversion. *)
Theorem getDatasetVersion_non_string :
  forall number_to_string network env repoId basePath d j,
    result (getDatasetInfo network env repoId basePath) = Normal d ->
    field d "codebase_version" = VData j ->
    (forall s, j <> JStr s) ->
    result (getDatasetVersion number_to_string network env repoId basePath)
    = (if truthy (VData j)
       then match json_to_string number_to_string j with
            | Normal printed =>
                Throw (VError (new_Error
                  ("Dataset " ++ repoId ++ " has codebase version "
                   ++ printed ++ ", which is not supported. "
                   ++ "This tool only works with dataset versions 3.0, 2.1, or 2.0. "
                   ++ "Please use a compatible dataset version.")))
            | Throw _ => Throw (VError TypeError_primitive)
            end
       else Throw (VError (new_Error
              "Dataset info.json does not contain codebase_version"))).
Proof.
  intros nts network env repoId basePath d j Hd Hj Hns.
  destruct (getDatasetInfo_returns network env repoId basePath d Hd)
    as (fields & -> & _).
  rewrite getDatasetVersion_run, Hd. cbn [get_prop]. cbn [field] in Hj.
  rewrite Hj.
  destruct (truthy (VData j)); cbn [negb]; [| reflexivity].
  destruct (includes supportedVersions (VData j)) eqn:I; cbn [negb].
  - apply includes_supported in I as (s & [= ->] & _). now contradiction (Hns s).
  - unfold unsupported_version_message. cbn [to_string].
    destruct (json_to_string nts j) as [printed|thrown] eqn:E; [reflexivity |].
    now rewrite (json_to_string_throws nts j thrown E).
Qed.

(** Every request of a call is [info_request]. *)
Lemma fetch_events_request network env repoId basePath rq :
  In (EvFetch rq) (events (getDatasetInfo network env repoId basePath)) ->
  rq = info_request env repoId (default_arg basePath "").
Proof.
  rewrite getDatasetInfo_events. intros Hin.
  destruct (network 0 _) as [r|err]; [| destruct (is_AbortError err)];
    cbn [In] in Hin;
    repeat (destruct Hin as [Hin|Hin]; try discriminate;
            try (now injection Hin as <-)); contradiction.
Qed.

(** X9. The bearer token: every request of a call carries
    [Authorization: Bearer <token>] with the value of [HF_TOKEN] when that
    is set and not empty, otherwise with the value of [HUGGINGFACE_TOKEN]
    when that is set and not empty, and no header at all otherwise. *)
Theorem requests_carry_token :
  forall network env repoId basePath rq,
    In (EvFetch rq) (events (getDatasetInfo network env repoId basePath)) ->
    req_headers rq
    = match env_HF_TOKEN env, env_HUGGINGFACE_TOKEN env with
      | Some (String c t), _ => [("Authorization", "Bearer " ++ String c t)]
      | _, Some (String c t) => [("Authorization", "Bearer " ++ String c t)]
      | _, _ => []
      end.
Proof.
  intros network env repoId basePath rq Hin.
  rewrite (fetch_events_request _ _ _ _ _ Hin). cbn [req_headers info_request]. unfold auth_headers, env_or.
  destruct (env_HF_TOKEN env) as [[|c t]|];
    destruct (env_HUGGINGFACE_TOKEN env) as [[|c' t']|]; reflexivity.
Qed.

(** X10. The descriptor is requested, with GET and without caching, from
    the URL that [buildVersionedUrl] gives for "meta/info.json", whatever
    version it is given. *)
Theorem descriptor_requested_at_built_url :
  forall network env repoId version basePath rq,
    In (EvFetch rq) (events (getDatasetInfo network env repoId basePath)) ->
    req_url rq = buildVersionedUrl env repoId version "meta/info.json" basePath
    /\ req_method rq = "GET"
    /\ req_cache rq = "no-store".
Proof.
  intros network env repoId version basePath rq Hin.
  rewrite (fetch_events_request _ _ _ _ _ Hin). repeat split.
Qed.

(** X11. A response is final: once the first request is answered there
    is no second request and no wait, whatever the status (a 500 or a 429
    is not retried) and whatever the body; an [Error] thrown when the body
    of a successful response is read reaches the caller as it is. *)
Theorem getDatasetInfo_response_final :
  forall network env repoId basePath r,
    network 0 (info_request env repoId (default_arg basePath ""))
    = Resolved r ->
    events (getDatasetInfo network env repoId basePath)
    = [EvSetAbortTimer 10000;
       EvFetch (info_request env repoId (default_arg basePath ""));
       EvClearAbortTimer]
    /\ (resp_ok r = false ->
        exists e,
          result (getDatasetInfo network env repoId basePath)
          = Throw (VError e))
    /\ (forall e,
          resp_ok r = true ->
          resp_json r = Throw (VError e) ->
          result (getDatasetInfo network env repoId basePath)
          = Throw (VError e)).
Proof.
  intros network env repoId basePath r H. repeat split.
  - now rewrite getDatasetInfo_events, H.
  - intros Hok.
    rewrite (getDatasetInfo_answered network env repoId basePath r)
      by (now left).
    unfold response_completion. rewrite Hok. cbn [negb].
    destruct ((resp_status r =? 401)%nat || (resp_status r =? 403)%nat);
      now eexists.
  - intros e Hok Hj.
    rewrite (getDatasetInfo_answered network env repoId basePath r)
      by (now left).
    unfold response_completion. now rewrite Hok, Hj.
Qed.

(** X12. A successful response whose body has a truthy "features" is
    returned as it was parsed: no other field is required, checked or
    changed. *)
Theorem getDatasetInfo_returns_body :
  forall network env repoId basePath r d,
    answered network (info_request env repoId (default_arg basePath "")) r ->
    resp_ok r = true ->
    resp_json r = Normal d ->
    truthy (field d "features") = true ->
    result (getDatasetInfo network env repoId basePath) = Normal d.
Proof.
  intros network env repoId basePath r d Hr Hok Hj Hf.
  rewrite (getDatasetInfo_answered network env repoId basePath r Hr).
  unfold response_completion. rewrite Hok, Hj. cbn [negb].
  destruct d as [| | | | |fields]; try discriminate.
  cbn [get_prop]. cbn [field] in Hf. now rewrite Hf.
Qed.

(* ===================================================================== *)
(** * Further properties of the prefix and of [buildVersionedUrl] *)
(* ===================================================================== *)

Lemma skip_slashes_decompose (s : string) :
  exists l, s = l ++ skip_slashes s /\ only_slashes l = true.
Proof.
  induction s as [|c r (l & E & Hl)]; [now exists "" |].
  cbn [skip_slashes]. destruct (is_slash c) eqn:Hc.
  - exists (String c l). cbn. rewrite Hc, Hl. now rewrite <- E.
  - now exists "".
Qed.

Lemma replace_from_decompose (s : string) :
  exists t, s = replace_from s ++ t /\ only_slashes t = true.
Proof.
  induction s as [|c r (t & E & Ht)]; [now exists "" |].
  cbn [replace_from]. destruct (is_slash c && only_slashes r) eqn:H.
  - exists (String c r). split; [reflexivity | exact H].
  - exists t. cbn. now rewrite <- E.
Qed.

Lemma replace_from_empty (s : string) :
  replace_from s = "" -> only_slashes s = true.
Proof.
  destruct s as [|c r]; cbn; [reflexivity |].
  destruct (is_slash c && only_slashes r); [reflexivity | discriminate].
Qed.

Lemma replace_from_no_trailing (s : string) :
  ends_with_slash (replace_from s) = false.
Proof.
  induction s as [|c r IH]; cbn [replace_from]; [reflexivity |].
  destruct (is_slash c && only_slashes r) eqn:H; [reflexivity |].
  cbn [ends_with_slash].
  destruct (replace_from r) as [|d x] eqn:E; [| exact IH].
  rewrite (replace_from_empty r E), andb_true_r in H. exact H.
Qed.

Lemma only_slashes_ends (s : string) :
  only_slashes s = true -> truthy_string s = true -> ends_with_slash s = true.
Proof.
  induction s as [|c r IH]; [discriminate |].
  cbn [only_slashes]. intros H _. apply andb_true_iff in H as [Hc Hr].
  destruct r as [|d r']; [exact Hc |].
  change (ends_with_slash (String c (String d r')))
    with (ends_with_slash (String d r')).
  now apply IH.
Qed.

Lemma replace_from_fixed (s : string) :
  ends_with_slash s = false -> replace_from s = s.
Proof.
  induction s as [|c r IH]; [reflexivity |].
  intros H. cbn [replace_from].
  destruct (is_slash c && only_slashes r) eqn:Hall.
  - rewrite (only_slashes_ends (String c r) Hall eq_refl) in H. discriminate.
  - f_equal. destruct r as [|d r']; [reflexivity |]. now apply IH.
Qed.

Lemma replace_slashes_fixed (s : string) :
  no_leading_slash s -> ends_with_slash s = false -> replace_slashes s = s.
Proof.
  intros Hl Ht.
  now rewrite replace_slashes_scan, (skip_slashes_fixed s Hl), replace_from_fixed.
Qed.

Lemma append_cancel_l (s a b : string) : s ++ a = s ++ b -> a = b.
Proof.
  induction s as [|c r IH]; cbn; [trivial |].
  intros [= H]. now apply IH.
Qed.

(** X13. The replace removes separators only, and only at the two ends:
    every string is a run of separators, then what the replace returns,
    then a run of separators, and what the replace returns neither starts
    nor ends with a separator.  Separators inside are kept. *)
Theorem replace_slashes_decomposition :
  forall s,
    (exists leading trailing,
        s = leading ++ replace_slashes s ++ trailing
        /\ only_slashes leading = true
        /\ only_slashes trailing = true)
    /\ no_leading_slash (replace_slashes s)
    /\ ends_with_slash (replace_slashes s) = false.
Proof.
  intros s. rewrite replace_slashes_scan. repeat split.
  - destruct (skip_slashes_decompose s) as (l & El & Hl).
    destruct (replace_from_decompose (skip_slashes s)) as (t & Et & Ht).
    exists l, t. repeat split; [| exact Hl | exact Ht].
    now rewrite <- Et.
  - apply replace_from_no_leading, skip_slashes_no_leading.
  - apply replace_from_no_trailing.
Qed.

(** X14. A base path that is not empty and has no separator at either end
    is inserted as it is, followed by one separator: the URL is
    [{host}/{repoId}/resolve/main/{basePath}/{path}]. *)
Theorem buildVersionedUrl_trimmed_base :
  forall env repoId version path basePath,
    trimmed_path basePath ->
    prefix_of basePath = basePath ++ "/"
    /\ buildVersionedUrl env repoId version path (Some basePath)
       = DATASET_URL env ++ "/" ++ repoId ++ "/resolve/main/"
         ++ basePath ++ "/" ++ path.
Proof.
  intros env repoId version path basePath (Hne & Hl & Ht).
  assert (E : prefix_of basePath = basePath ++ "/").
  { unfold prefix_of. now rewrite Hne, replace_slashes_fixed. }
  split; [exact E |].
  unfold buildVersionedUrl. cbn [default_arg].
  now rewrite E, append_associative.
Qed.

(** X15. Two relative paths get the same URL only if they are the same
    path: for a given host, repository and base path the builder is
    injective in the path. *)
Theorem buildVersionedUrl_path_injective :
  forall env repoId v1 v2 path1 path2 basePath,
    buildVersionedUrl env repoId v1 path1 basePath
    = buildVersionedUrl env repoId v2 path2 basePath ->
    path1 = path2.
Proof.
  intros env repoId v1 v2 path1 path2 basePath. unfold buildVersionedUrl.
  rewrite <- !append_associative. apply append_cancel_l.
Qed.

(* ===================================================================== *)
(** * Properties of the dataset sub-path page *)
(* ===================================================================== *)

Lemma after_prefix_sound (p s r : string) :
  after_prefix p s = Some r -> s = p ++ r.
Proof.
  revert s. induction p as [|a p IH]; intros s; cbn.
  - now intros [= ->].
  - destruct s as [|b s]; [discriminate |].
    destruct (Ascii.eqb_spec a b) as [->|]; [| discriminate].
    intros H. now rewrite (IH s H).
Qed.

Lemma after_prefix_complete (p r : string) : after_prefix p (p ++ r) = Some r.
Proof.
  induction p as [|a p IH]; cbn; [reflexivity |].
  now rewrite Ascii.eqb_refl.
Qed.

Lemma join_slash_snoc (parts : list string) (x : string) :
  parts <> [] -> join_slash (parts ++ [x]) = join_slash parts ++ "/" ++ x.
Proof.
  induction parts as [|p [|q parts] IH]; [congruence | reflexivity |].
  intros _. change (join_slash ((p :: q :: parts) ++ [x]))
    with (p ++ "/" ++ join_slash ((q :: parts) ++ [x])).
  rewrite IH by discriminate.
  change (join_slash (p :: q :: parts)) with (p ++ "/" ++ join_slash (q :: parts)).
  now rewrite !append_associative.
Qed.

Lemma ends_with_slash_append (s t : string) :
  truthy_string t = true -> ends_with_slash (s ++ t) = ends_with_slash t.
Proof.
  intros Ht. induction s as [|c r IH]; [reflexivity |].
  cbn [append ends_with_slash].
  destruct (r ++ t) as [|d x] eqn:E; [| exact IH].
  destruct r; [cbn in E; subst t |]; discriminate.
Qed.

Lemma join_slash_trimmed (parts : list string) :
  Forall trimmed_path parts -> parts <> [] -> trimmed_path (join_slash parts).
Proof.
  induction parts as [|p [|q parts] IH]; intros HF Hne; [congruence | |].
  - now inversion HF.
  - inversion HF as [|? ? (Hp & Hl & Ht) HF']; subst.
    destruct (IH HF' ltac:(discriminate)) as (Hne' & _ & Ht').
    change (join_slash (p :: q :: parts))
      with (p ++ "/" ++ join_slash (q :: parts)).
    repeat split.
    + destruct p; [discriminate | reflexivity].
    + destruct p; [discriminate | exact Hl].
    + rewrite ends_with_slash_append by reflexivity.
      change ("/" ++ join_slash (q :: parts))
        with (String "/" (join_slash (q :: parts))).
      destruct (join_slash (q :: parts)); [discriminate | exact Ht'].
Qed.

(** The page at a list of segments that ends with a segment [s]. *)
Lemma DatasetSubpathPage_snoc episodeN org dataset segments s :
  DatasetSubpathPage episodeN org dataset (segments ++ [s])
  = if test_episode s
    then Render (join_slash segments) (replace_episode_prefix s)
    else Redirect ("/" ++ org ++ "/" ++ dataset ++ "/"
                   ++ (join_slash (segments ++ [s]) ++ "/")
                   ++ "episode_" ++ episodeN).
Proof.
  unfold DatasetSubpathPage.
  rewrite map_app. cbn [map]. rewrite last_last, removelast_last.
  assert (E : (if truthy_string s then s else "") = s)
    by (destruct s; reflexivity).
  rewrite E. destruct (test_episode s); cbn [negb]; [reflexivity |].
  destruct (segments ++ [s])%list eqn:El; [| reflexivity].
  now destruct segments.
Qed.

(** X16. The page renders only at a path whose last segment is
    [episode_] followed by one or more decimal digits: the text it hands
    to [Number] is that non-empty run of digits, and the base path is the
    segments before it, joined by separators. *)
Theorem subpath_page_renders_episodes :
  forall episodeN org dataset rest basePath episodeText,
    DatasetSubpathPage episodeN org dataset rest
    = Render basePath episodeText ->
    exists segments,
      rest = (segments ++ [("episode_" ++ episodeText)%string])%list
      /\ basePath = join_slash segments
      /\ truthy_string episodeText = true
      /\ only_digits episodeText = true.
Proof.
  intros episodeN org dataset rest basePath episodeText.
  destruct rest as [|x xs]; [cbn; discriminate |].
  destruct (@exists_last _ (x :: xs) ltac:(discriminate)) as [segments [s ->]].
  rewrite DatasetSubpathPage_snoc.
  destruct (test_episode s) eqn:T; [| discriminate].
  intros [= <- <-]. exists segments.
  unfold test_episode, replace_episode_prefix in *.
  destruct (after_prefix "episode_" s) as [digits|] eqn:E; [| discriminate].
  apply andb_true_iff in T as [T1 T2].
  rewrite (after_prefix_sound _ _ _ E). repeat split; assumption.
Qed.

(** X17. Following the redirect does not redirect again: when the page
    at a non-empty list of segments redirects and the configured episode
    number prints as digits, the target is the page's own path extended
    by the segment [episode_N], and at those segments the page renders,
    with the whole former path as its base path. *)
Theorem subpath_page_redirect_lands :
  forall episodeN org dataset rest url,
    truthy_string episodeN = true ->
    only_digits episodeN = true ->
    rest <> [] ->
    DatasetSubpathPage episodeN org dataset rest = Redirect url ->
    url = "/" ++ org ++ "/" ++ dataset ++ "/"
          ++ join_slash (rest ++ ["episode_" ++ episodeN])
    /\ DatasetSubpathPage episodeN org dataset
         (rest ++ ["episode_" ++ episodeN])
       = Render (join_slash rest) episodeN.
Proof.
  intros episodeN org dataset rest url Hne Hd Hrest Hpage. split.
  - destruct (@exists_last _ rest Hrest) as [segments [s ->]].
    rewrite DatasetSubpathPage_snoc in Hpage.
    destruct (test_episode s); [discriminate |].
    injection Hpage as <-.
    rewrite (join_slash_snoc (segments ++ [s])) by (now destruct segments).
    now rewrite !append_associative.
  - rewrite DatasetSubpathPage_snoc.
    unfold test_episode, replace_episode_prefix.
    rewrite after_prefix_complete, Hne, Hd. reflexivity.
Qed.

(** X18. The base path the page renders with, built from segments that
    are not empty and have no separator at either end, goes into the
    artifact URLs as it is: nothing for a path with the episode segment
    only, and otherwise the segments joined by separators and followed by
    one separator. *)
Theorem subpath_page_base_in_url :
  forall episodeN org dataset env repoId version path segments last,
    Forall trimmed_path segments ->
    test_episode last = true ->
    DatasetSubpathPage episodeN org dataset (segments ++ [last])
    = Render (join_slash segments) (replace_episode_prefix last)
    /\ buildVersionedUrl env repoId version path (Some (join_slash segments))
       = DATASET_URL env ++ "/" ++ repoId ++ "/resolve/main/"
         ++ match segments with
            | [] => ""
            | _ :: _ => join_slash segments ++ "/"
            end
         ++ path.
Proof.
  intros episodeN org dataset env repoId version path segments last HF HT.
  split.
  - now rewrite DatasetSubpathPage_snoc, HT.
  - unfold buildVersionedUrl. cbn [default_arg].
    destruct segments as [|p parts]; [reflexivity |].
    destruct (join_slash_trimmed (p :: parts) HF ltac:(discriminate))
      as (Hne & Hl & Ht).
    unfold prefix_of. now rewrite Hne, replace_slashes_fixed.
Qed.

(* ===================================================================== *)
(** * Properties of the pagination of the episode viewer *)
(* ===================================================================== *)

Lemma firstn_plus {A} (a b : nat) (l : list A) :
  firstn (a + b) l = (firstn a l ++ firstn b (skipn a l))%list.
Proof.
  revert l. induction a as [|a IH]; intros l; [reflexivity |].
  destruct l as [|x l]; cbn; [now rewrite firstn_nil | now rewrite IH].
Qed.

(** The page [k + 1] holds the [pageSize] entries from index
    [k * pageSize] on. *)
Lemma paginatedEpisodes_chunk {A} (episodes : list A) (k : nat) :
  paginatedEpisodes episodes (S k)
  = firstn pageSize (skipn (k * pageSize) episodes).
Proof.
  unfold paginatedEpisodes, slice, pageSize. f_equal; [| f_equal]; lia.
Qed.

Lemma pages_prefix {A} (episodes : list A) (n : nat) :
  flat_map (paginatedEpisodes episodes) (seq 1 n)
  = firstn (n * pageSize) episodes.
Proof.
  induction n as [|n IH]; [reflexivity |].
  rewrite seq_S, flat_map_app, IH. cbn [flat_map plus].
  rewrite app_nil_r, paginatedEpisodes_chunk.
  replace (S n * pageSize)%nat with (n * pageSize + pageSize)%nat by lia.
  now rewrite firstn_plus.
Qed.

Lemma totalPages_covers {A} (episodes : list A) :
  (length episodes <= totalPages episodes * pageSize)%nat.
Proof.
  unfold totalPages, ceil_div, pageSize.
  pose proof (Nat.div_mod_eq (length episodes) 100) as E.
  pose proof (Nat.mod_upper_bound (length episodes) 100 ltac:(lia)) as B.
  destruct (Nat.eqb_spec (length episodes mod 100) 0); lia.
Qed.

Lemma totalPages_tight {A} (episodes : list A) (p : nat) :
  (p < totalPages episodes -> S p * pageSize - pageSize < length episodes)%nat.
Proof.
  unfold totalPages, ceil_div, pageSize.
  pose proof (Nat.div_mod_eq (length episodes) 100) as E.
  pose proof (Nat.mod_upper_bound (length episodes) 100 ltac:(lia)) as B.
  destruct (Nat.eqb_spec (length episodes mod 100) 0); lia.
Qed.

(** X19. The pages partition the list: the pages 1 to [totalPages], one
    after the other, are the episodes, each once and in order. *)
Theorem pages_partition_episodes :
  forall (A : Type) (episodes : list A),
    flat_map (paginatedEpisodes episodes) (seq 1 (totalPages episodes))
    = episodes.
Proof.
  intros A episodes. rewrite pages_prefix.
  apply firstn_all2, totalPages_covers.
Qed.

(** X20. Every page from 1 to [totalPages] shows at least one episode
    and at most [pageSize]; all but the last show exactly [pageSize], and
    a page beyond [totalPages] shows none. *)
Theorem page_sizes :
  forall (A : Type) (episodes : list A) (currentPage : nat),
    (1 <= currentPage ->
     (currentPage <= totalPages episodes ->
      1 <= length (paginatedEpisodes episodes currentPage) <= pageSize)
     /\ (currentPage < totalPages episodes ->
         length (paginatedEpisodes episodes currentPage) = pageSize)
     /\ (totalPages episodes < currentPage ->
         paginatedEpisodes episodes currentPage = []))%nat.
Proof.
  intros A episodes [|k] H1; [lia |].
  rewrite paginatedEpisodes_chunk.
  pose proof (totalPages_covers episodes) as Hc.
  pose proof (totalPages_tight episodes k) as Ht.
  pose proof (totalPages_tight episodes (S k)) as Ht'.
  repeat split.
  - rewrite length_firstn, length_skipn. unfold pageSize in *. lia.
  - rewrite length_firstn. lia.
  - intros Hlt. rewrite length_firstn, length_skipn.
    unfold pageSize in *. lia.
  - intros Hgt. rewrite skipn_all2; [apply firstn_nil |].
    unfold pageSize in *. lia.
Qed.

(** X21. The two buttons keep the page between 1 and [totalPages], do
    nothing at the ends, and undo each other in between. *)
Theorem page_navigation :
  forall total currentPage : nat,
    (1 <= currentPage <= total ->
     (1 <= nextPage total currentPage <= total)
     /\ (1 <= prevPage currentPage <= total)
     /\ nextPage total total = total
     /\ prevPage 1 = 1
     /\ (currentPage < total ->
         prevPage (nextPage total currentPage) = currentPage)
     /\ (1 < currentPage ->
         nextPage total (prevPage currentPage) = currentPage))%nat.
Proof.
  intros total currentPage H. unfold nextPage, prevPage.
  repeat split; intros;
    repeat match goal with
           | |- context [(?a <? ?b)%nat] => destruct (Nat.ltb_spec a b)
           end; lia.
Qed.

Section EpisodePage.

Variable A : Type.
Variable same : A -> A -> bool.

Lemma indexOf_found (episodes : list A) (episodeId : A) (i : nat) :
  indexOf A same episodes episodeId = Some i ->
  exists e, nth_error episodes i = Some e /\ same e episodeId = true
            /\ forall j e', (j < i)%nat -> nth_error episodes j = Some e' ->
                            same e' episodeId = false.
Proof.
  revert i. induction episodes as [|x l IH]; intros i; cbn; [discriminate |].
  destruct (same x episodeId) eqn:Hx.
  - intros [= <-]. exists x. repeat split; [exact Hx | intros; lia].
  - destruct (indexOf A same l episodeId) as [k|]; [| discriminate].
    intros [= <-]. destruct (IH k eq_refl) as (e & He & Hs & Hbefore).
    exists e. repeat split; [exact He | exact Hs |].
    intros [|j] e' Hj; cbn; [now intros [= <-] |].
    apply Hbefore. lia.
Qed.

(** X22. The page set for the episode of the viewer is between 1 and
    [totalPages] and shows that episode: the first entry of the list that
    equals the episode is on it, at the index modulo [pageSize]. *)
Theorem initial_page_shows_episode :
  forall (episodes : list A) (episodeId : A) (currentPage episodeIndex : nat),
    indexOf A same episodes episodeId = Some episodeIndex ->
    (1 <= initial_page A same episodes episodeId currentPage
        <= totalPages episodes)%nat
    /\ exists e,
         nth_error
           (paginatedEpisodes episodes
              (initial_page A same episodes episodeId currentPage))
           (episodeIndex mod pageSize)
         = Some e
         /\ nth_error episodes episodeIndex = Some e
         /\ same e episodeId = true.
Proof.
  intros episodes episodeId currentPage i Hi.
  unfold initial_page. rewrite Hi.
  destruct (indexOf_found episodes episodeId i Hi) as (e & He & Hs & _).
  assert (Hlt : (i < length episodes)%nat)
    by (apply nth_error_Some; congruence).
  pose proof (totalPages_covers episodes) as Hc.
  pose proof (Nat.div_mod_eq i pageSize) as E.
  pose proof (Nat.mod_upper_bound i pageSize ltac:(discriminate)) as B.
  split.
  - split; [lia |].
    assert (i / pageSize < totalPages episodes)%nat; [| lia].
    apply Nat.Div0.div_lt_upper_bound. lia.
  - exists e. repeat split; [| exact He | exact Hs].
    replace (i / pageSize + 1)%nat with (S (i / pageSize)) by lia.
    rewrite paginatedEpisodes_chunk, nth_error_firstn.
    destruct (Nat.ltb_spec (i mod pageSize) pageSize); [| lia].
    rewrite nth_error_skipn, <- He. f_equal. lia.
Qed.

End EpisodePage.

(* ===================================================================== *)
(** * Properties of the form of the home page *)
(* ===================================================================== *)

Lemma split_slash_cons (s : string) :
  exists part parts, split_slash s = part :: parts.
Proof.
  destruct s as [|c r]; cbn; [now eexists _, _ |].
  destruct (is_slash c); [now eexists _, _ |].
  destruct (split_slash r); now eexists _, _.
Qed.

(** Splitting at the first separator. *)
Lemma split_slash_first (org tail : string) :
  slash_free org = true ->
  split_slash (org ++ "/" ++ tail) = org :: split_slash tail.
Proof.
  induction org as [|c r IH]; cbn; [reflexivity |].
  intros H. apply andb_true_iff in H as [Hc Hr].
  apply negb_true_iff in Hc. rewrite Hc.
  cbn in IH. now rewrite (IH Hr).
Qed.

Lemma split_slash_free (s : string) :
  slash_free s = true -> split_slash s = [s].
Proof.
  induction s as [|c r IH]; cbn; [reflexivity |].
  intros H. apply andb_true_iff in H as [Hc Hr].
  apply negb_true_iff in Hc. now rewrite Hc, (IH Hr).
Qed.

(** The first part, and what follows the first separator if there is one. *)
Lemma split_slash_shape (s : string) :
  (slash_free s = true /\ split_slash s = [s])
  \/ exists org tail,
       s = org ++ "/" ++ tail
       /\ slash_free org = true
       /\ split_slash s = org :: split_slash tail.
Proof.
  induction s as [|c r IH]; [left; now split |].
  destruct (is_slash c) eqn:Hc.
  - right. exists "", r. apply Ascii.eqb_eq in Hc. subst c.
    repeat split.
  - destruct IH as [[Hf E] | (org & tail & E & Hf & Hs)].
    + left. cbn. rewrite Hc, Hf, E. now split.
    + right. exists (String c org), tail. subst r. repeat split.
      * cbn. now rewrite Hc, Hf.
      * apply (split_slash_first (String c org) tail). cbn. now rewrite Hc, Hf.
Qed.

Lemma split_slash_head_truthy (s : string) :
  truthy_string (nth 0 (split_slash s) "") = true
  <-> truthy_string s = true /\ no_leading_slash s.
Proof.
  destruct s as [|c r]; cbn; [split; [discriminate | now intros [? _]] |].
  destruct (is_slash c) eqn:Hc; cbn.
  - split; [discriminate | now intros [_ ?]].
  - destruct (split_slash r); cbn; now split.
Qed.

(** X23. Splitting at the separators and joining with separators gives
    the string back; the parts hold no separator and there is at least
    one part. *)
Theorem join_split_round_trip :
  forall s,
    join_slash (split_slash s) = s
    /\ Forall (fun part => slash_free part = true) (split_slash s)
    /\ split_slash s <> [].
Proof.
  intros s. repeat split.
  - induction s as [|c r IH]; [reflexivity |]. cbn [split_slash].
    destruct (split_slash_cons r) as (part & parts & E).
    rewrite E in *. destruct (is_slash c) eqn:Hc.
    + apply Ascii.eqb_eq in Hc. subst c.
      change (join_slash ("" :: part :: parts))
        with (String "/" (join_slash (part :: parts))).
      now rewrite IH.
    + rewrite <- IH. now destruct parts.
  - induction s as [|c r IH]; [now repeat constructor |]. cbn [split_slash].
    destruct (split_slash_cons r) as (part & parts & E).
    rewrite E in *. destruct (is_slash c) eqn:Hc.
    + now constructor.
    + inversion IH as [|? ? Hp Hps]; subst. constructor; [| exact Hps].
      cbn. now rewrite Hc, Hp.
  - destruct (split_slash_cons s) as (part & parts & E). now rewrite E.
Qed.

(** X24. Joining parts that hold no separator and splitting the result
    gives the parts back. *)
Theorem split_join_round_trip :
  forall parts,
    parts <> [] ->
    Forall (fun part => slash_free part = true) parts ->
    split_slash (join_slash parts) = parts.
Proof.
  induction parts as [|p [|q parts] IH]; intros Hne HF; [congruence | |].
  - inversion HF; subst. now apply split_slash_free.
  - inversion HF as [|? ? Hp HF']; subst.
    change (join_slash (p :: q :: parts))
      with (p ++ "/" ++ join_slash (q :: parts)).
    rewrite split_slash_first by exact Hp.
    now rewrite IH.
Qed.

Lemma split_join_round_trip_witness :
  ["lerobot"; "pusht"; ""] <> []
  /\ split_slash (join_slash ["lerobot"; "pusht"; ""]) = ["lerobot"; "pusht"; ""].
Proof.
  split; [discriminate |].
  apply split_join_round_trip; [discriminate |].
  repeat constructor.
Defined.

(** X25. The form navigates exactly when the trimmed repository path has
    a non-empty first part, a separator, and something that does not start
    with a separator after it; the path pushed is then the trimmed
    repository path, the trimmed sub-folder after a separator when it is
    not empty, and [/episode_0]. *)
Theorem handleGo_validates :
  forall trim repoInput subfolderInput path,
    handleGo trim repoInput subfolderInput = Some path
    <-> exists repo org tail,
          repoInput = Some repo
          /\ trim repo = org ++ "/" ++ tail
          /\ truthy_string org = true
          /\ slash_free org = true
          /\ truthy_string tail = true
          /\ no_leading_slash tail
          /\ path = trim repo
                    ++ match option_map trim subfolderInput with
                       | Some (String c sub) => "/" ++ String c sub
                       | _ => ""
                       end
                    ++ "/episode_0".
Proof.
  intros trim repoInput subfolderInput path.
  assert (Hpath : forall repo,
             (let path := trim repo in
              let path :=
                match option_map trim subfolderInput with
                | Some subfolder =>
                    if truthy_string subfolder then path ++ "/" ++ subfolder
                    else path
                | None => path
                end in
              path ++ "/episode_0")
             = trim repo
               ++ match option_map trim subfolderInput with
                  | Some (String c sub) => "/" ++ String c sub
                  | _ => ""
                  end
               ++ "/episode_0").
  { intros repo. cbv zeta.
    destruct (option_map trim subfolderInput) as [[|c sub]|];
      cbn [truthy_string]; rewrite ?append_associative; reflexivity. }
  unfold handleGo. destruct repoInput as [repo|]; cbn [option_map].
  2:{ split; [discriminate | now intros (? & ? & ? & [=] & _)]. }
  rewrite Hpath. clear Hpath.
  destruct (split_slash_shape (trim repo))
    as [[Hf E] | (org & tail & E & Hf & Hs)].
  - (* no separator at all: a single part *)
    rewrite E. cbn [length Nat.leb andb]. 
    destruct (truthy_string (trim repo)); (split; [discriminate |]);
      intros (r & org & tail & [= <-] & Et & _ & Hfo & _); exfalso;
      rewrite Et in Hf; clear - Hf Hfo;
      induction org as [|c o IH]; cbn in *;
      try discriminate;
      apply andb_true_iff in Hfo as [Hc Ho];
      apply andb_true_iff in Hf as [_ Hf]; now apply IH.
  - rewrite Hs.
    destruct (split_slash_cons tail) as (part & parts & Et).
    pose proof (split_slash_head_truthy tail) as Hhead.
    rewrite Et in *. cbn [length Nat.leb nth] in *.
    assert (Htrim : truthy_string (trim repo) = truthy_string org || true).
    { rewrite E. destruct org; reflexivity. }
    split.
    + destruct (truthy_string (trim repo)) eqn:T; [| discriminate].
      destruct (truthy_string org) eqn:To; [| discriminate].
      destruct (truthy_string part) eqn:Tp; [| discriminate].
      cbn [andb]. intros [= <-].
      exists repo, org, tail. destruct Hhead as [[Ht Hl] _]; [reflexivity |].
      repeat split; assumption.
    + intros (r & org' & tail' & [= <-] & E' & To' & Hf' & Tt' & Hl' & ->).
      assert (Eq : org' = org /\ tail' = tail).
      { rewrite E in E'. clear - E' Hf Hf'.
        revert org' E' Hf'. induction org as [|c o IH]; intros [|c' o'] E' Hf'.
        - cbn in E'. now injection E' as <-.
        - cbn in E', Hf'. injection E' as <- _. discriminate.
        - cbn in E', Hf. injection E' as -> _. discriminate.
        - cbn in E', Hf, Hf'. injection E' as <- E'.
          apply andb_true_iff in Hf as [_ Hf].
          apply andb_true_iff in Hf' as [_ Hf'].
          destruct (IH Hf o' E' Hf') as [-> ->]. now split. }
      destruct Eq as [-> ->].
      rewrite Htrim, To'. cbn [orb andb].
      destruct Hhead as [_ Hhead]. now rewrite (Hhead (conj Tt' Hl')).
Qed.

(* ===================================================================== *)
(** * The further properties at samples *)
(* ===================================================================== *)

Lemma getDatasetInfo_last_error_surfaces_witness :
  last_rejection (reject_twice (VData (JStr "boom")) (VError operation_aborted))
    (info_request empty_environment "lerobot/pusht" "")
    (VError operation_aborted)
  /\ result (getDatasetInfo
               (reject_twice (VData (JStr "boom")) (VError operation_aborted))
               empty_environment "lerobot/pusht" None)
     = Throw (VError operation_aborted).
Proof.
  assert (H : last_rejection
                (reject_twice (VData (JStr "boom")) (VError operation_aborted))
                (info_request empty_environment "lerobot/pusht" "")
                (VError operation_aborted)).
  { right. exists (VData (JStr "boom")). repeat split. }
  split; [exact H |].
  exact (getDatasetInfo_last_error_surfaces _ empty_environment "lerobot/pusht"
           None operation_aborted H).
Defined.

Lemma getDatasetInfo_non_error_rejection_witness :
  last_rejection (reject_twice VUndefined VUndefined)
    (info_request empty_environment "lerobot/pusht" "") VUndefined
  /\ result (getDatasetInfo (reject_twice VUndefined VUndefined)
               empty_environment "lerobot/pusht" None)
     = Throw (VError (new_Error
         "Unknown network error while fetching dataset info")).
Proof.
  assert (H : last_rejection (reject_twice VUndefined VUndefined)
                (info_request empty_environment "lerobot/pusht" "") VUndefined).
  { right. exists VUndefined. repeat split. }
  split; [exact H |].
  exact (getDatasetInfo_non_error_rejection _ empty_environment "lerobot/pusht"
           None VUndefined H eq_refl).
Defined.

Lemma getDatasetInfo_retry_transparent_witness :
  is_AbortError (VError connection_refused) = false
  /\ result (getDatasetInfo
               (reject_then_respond (VError connection_refused) 200 pusht_info)
               empty_environment "lerobot/pusht" None)
     = Normal pusht_info
  /\ fetch_count
       (events (getDatasetInfo
                  (reject_then_respond (VError connection_refused) 200 pusht_info)
                  empty_environment "lerobot/pusht" None)) = 2.
Proof.
  split; [reflexivity |].
  destruct (getDatasetInfo_retry_transparent
              (reject_then_respond (VError connection_refused) 200 pusht_info)
              empty_environment "lerobot/pusht" None
              (VError connection_refused)
              {| resp_status := 200; resp_json := Normal pusht_info |}
              eq_refl eq_refl eq_refl)
    as (Hresult & Hcount & _).
  split; [rewrite Hresult; reflexivity | exact Hcount].
Defined.

Lemma getDatasetVersion_returns_supported_witness :
  result (getDatasetVersion print_ten (respond_with 200 pusht_info)
            empty_environment "lerobot/pusht" None)
  = Normal (VData (JStr "v2.1"))
  /\ exists s d,
       VData (JStr "v2.1") = VData (JStr s)
       /\ In s ["v3.0"; "v2.1"; "v2.0"]
       /\ result (getDatasetInfo (respond_with 200 pusht_info)
                    empty_environment "lerobot/pusht" None)
          = Normal d
       /\ field d "codebase_version" = VData (JStr s).
Proof.
  split; [reflexivity |].
  exact (getDatasetVersion_returns_supported print_ten
           (respond_with 200 pusht_info) empty_environment "lerobot/pusht"
           None (VData (JStr "v2.1")) eq_refl).
Defined.

Lemma getDatasetVersion_non_string_witness :
  result (getDatasetInfo (respond_with 200 pusht_info_true_version)
            empty_environment "lerobot/pusht" None)
  = Normal pusht_info_true_version
  /\ field pusht_info_true_version "codebase_version" = VData (JBool true)
  /\ result (getDatasetVersion print_ten
               (respond_with 200 pusht_info_true_version)
               empty_environment "lerobot/pusht" None)
     = Throw (VError (new_Error
         ("Dataset lerobot/pusht has codebase version true, which is not supported. "
          ++ "This tool only works with dataset versions 3.0, 2.1, or 2.0. "
          ++ "Please use a compatible dataset version."))).
Proof.
  split; [reflexivity |]. split; [reflexivity |].
  refine (getDatasetVersion_non_string print_ten
            (respond_with 200 pusht_info_true_version) empty_environment
            "lerobot/pusht" None pusht_info_true_version (JBool true)
            eq_refl eq_refl _).
  intros s. discriminate.
Defined.

Lemma requests_carry_token_witness :
  In (EvFetch (info_request token_environment "lerobot/pusht" ""))
     (events (getDatasetInfo (respond_with 200 pusht_info) token_environment
                "lerobot/pusht" None))
  /\ req_headers (info_request token_environment "lerobot/pusht" "")
     = [("Authorization", "Bearer hf_secret")].
Proof.
  assert (H : In (EvFetch (info_request token_environment "lerobot/pusht" ""))
                (events (getDatasetInfo (respond_with 200 pusht_info)
                           token_environment "lerobot/pusht" None))).
  { right. left. reflexivity. }
  split; [exact H |].
  exact (requests_carry_token _ token_environment "lerobot/pusht" None _ H).
Defined.

Lemma descriptor_requested_at_built_url_witness :
  In (EvFetch (info_request empty_environment "lerobot/pusht" "sub"))
     (events (getDatasetInfo (respond_with 200 pusht_info) empty_environment
                "lerobot/pusht" (Some "sub")))
  /\ req_url (info_request empty_environment "lerobot/pusht" "sub")
     = "https://huggingface.co/datasets/lerobot/pusht/resolve/main/sub/meta/info.json".
Proof.
  assert (H : In (EvFetch (info_request empty_environment "lerobot/pusht" "sub"))
                (events (getDatasetInfo (respond_with 200 pusht_info)
                           empty_environment "lerobot/pusht" (Some "sub")))).
  { right. left. reflexivity. }
  split; [exact H |].
  exact (proj1 (descriptor_requested_at_built_url _ empty_environment
                  "lerobot/pusht" "v2.1" (Some "sub") _ H)).
Defined.

Lemma getDatasetInfo_response_final_witness :
  respond_with 500 JNull 0 (info_request empty_environment "lerobot/pusht" "")
  = Resolved {| resp_status := 500; resp_json := Normal JNull |}
  /\ events (getDatasetInfo (respond_with 500 JNull) empty_environment
               "lerobot/pusht" None)
     = [EvSetAbortTimer 10000;
        EvFetch (info_request empty_environment "lerobot/pusht" "");
        EvClearAbortTimer].
Proof.
  split; [reflexivity |].
  exact (proj1 (getDatasetInfo_response_final (respond_with 500 JNull)
                  empty_environment "lerobot/pusht" None _ eq_refl)).
Defined.

Lemma getDatasetInfo_returns_body_witness :
  answered (respond_with 200 pusht_info)
    (info_request empty_environment "lerobot/pusht" "")
    {| resp_status := 200; resp_json := Normal pusht_info |}
  /\ truthy (field pusht_info "features") = true
  /\ result (getDatasetInfo (respond_with 200 pusht_info) empty_environment
               "lerobot/pusht" None)
     = Normal pusht_info.
Proof.
  assert (H : answered (respond_with 200 pusht_info)
                (info_request empty_environment "lerobot/pusht" "")
                {| resp_status := 200; resp_json := Normal pusht_info |})
    by (left; reflexivity).
  split; [exact H |]. split; [reflexivity |].
  exact (getDatasetInfo_returns_body _ empty_environment "lerobot/pusht" None
           _ pusht_info H eq_refl eq_refl eq_refl).
Defined.

Lemma buildVersionedUrl_trimmed_base_witness :
  trimmed_path "a/b"
  /\ buildVersionedUrl empty_environment "lerobot/pusht" "v2.1"
       "meta/info.json" (Some "a/b")
     = "https://huggingface.co/datasets/lerobot/pusht/resolve/main/a/b/meta/info.json".
Proof.
  assert (H : trimmed_path "a/b") by (repeat split).
  split; [exact H |].
  exact (proj2 (buildVersionedUrl_trimmed_base empty_environment
                  "lerobot/pusht" "v2.1" "meta/info.json" "a/b" H)).
Defined.

Lemma buildVersionedUrl_path_injective_witness :
  buildVersionedUrl empty_environment "lerobot/pusht" "v2.1"
    "meta/info.json" None
  = buildVersionedUrl empty_environment "lerobot/pusht" "v3.0"
      "meta/info.json" None
  /\ "meta/info.json" = "meta/info.json".
Proof.
  split; [reflexivity |].
  exact (buildVersionedUrl_path_injective empty_environment "lerobot/pusht"
           "v2.1" "v3.0" "meta/info.json" "meta/info.json" None eq_refl).
Defined.

Lemma subpath_page_renders_episodes_witness :
  DatasetSubpathPage "0" "lerobot" "pusht" ["sub"; "episode_12"]
  = Render "sub" "12"
  /\ exists segments,
       ["sub"; "episode_12"] = (segments ++ [("episode_" ++ "12")%string])%list
       /\ "sub" = join_slash segments
       /\ truthy_string "12" = true
       /\ only_digits "12" = true.
Proof.
  split; [reflexivity |].
  exact (subpath_page_renders_episodes "0" "lerobot" "pusht"
           ["sub"; "episode_12"] "sub" "12" eq_refl).
Defined.

Lemma subpath_page_redirect_lands_witness :
  DatasetSubpathPage "0" "lerobot" "pusht" ["sub"]
  = Redirect "/lerobot/pusht/sub/episode_0"
  /\ DatasetSubpathPage "0" "lerobot" "pusht" ["sub"; "episode_0"]
     = Render "sub" "0".
Proof.
  split; [reflexivity |].
  refine (proj2 (subpath_page_redirect_lands "0" "lerobot" "pusht" ["sub"]
                   "/lerobot/pusht/sub/episode_0" eq_refl eq_refl _ eq_refl)).
  discriminate.
Defined.

Lemma subpath_page_base_in_url_witness :
  Forall trimmed_path ["a"; "b"]
  /\ test_episode "episode_3" = true
  /\ buildVersionedUrl empty_environment "lerobot/pusht" "v2.1"
       "meta/info.json" (Some (join_slash ["a"; "b"]))
     = "https://huggingface.co/datasets/lerobot/pusht/resolve/main/a/b/meta/info.json".
Proof.
  assert (H : Forall trimmed_path ["a"; "b"])
    by (repeat constructor).
  split; [exact H |]. split; [reflexivity |].
  exact (proj2 (subpath_page_base_in_url "0" "lerobot" "pusht"
                  empty_environment "lerobot/pusht" "v2.1" "meta/info.json"
                  ["a"; "b"] "episode_3" H eq_refl)).
Defined.

Lemma page_sizes_witness :
  (1 <= 3)%nat
  /\ totalPages (seq 0 250) = 3
  /\ length (paginatedEpisodes (seq 0 250) 3) = 50
  /\ (1 <= length (paginatedEpisodes (seq 0 250) 3) <= pageSize)%nat.
Proof.
  split; [lia |]. split; [reflexivity |]. split; [reflexivity |].
  refine (proj1 (page_sizes nat (seq 0 250) 3 _) _); cbn; lia.
Defined.

Lemma page_navigation_witness :
  (1 <= 2 <= 3)%nat
  /\ prevPage (nextPage 3 2) = 2.
Proof.
  split; [lia |].
  destruct (page_navigation 3 2 ltac:(lia)) as (_ & _ & _ & _ & H & _).
  apply H. lia.
Defined.

Lemma initial_page_shows_episode_witness :
  indexOf nat Nat.eqb (seq 0 250) 120 = Some 120
  /\ initial_page nat Nat.eqb (seq 0 250) 120 1 = 2
  /\ exists e,
       nth_error (paginatedEpisodes (seq 0 250)
                    (initial_page nat Nat.eqb (seq 0 250) 120 1))
                 (120 mod pageSize) = Some e
       /\ nth_error (seq 0 250) 120 = Some e
       /\ Nat.eqb e 120 = true.
Proof.
  split; [reflexivity |]. split; [reflexivity |].
  exact (proj2 (initial_page_shows_episode nat Nat.eqb (seq 0 250) 120 1 120
                  eq_refl)).
Defined.

Lemma handleGo_validates_witness :
  handleGo (fun s => s) (Some "lerobot/pusht") (Some "sub")
  = Some "lerobot/pusht/sub/episode_0".
Proof.
  apply (handleGo_validates (fun s => s) (Some "lerobot/pusht") (Some "sub")).
  exists "lerobot/pusht", "lerobot", "pusht". repeat split.
Defined.

(** A version that cannot be printed: the template literal throws. *)
Lemma getDatasetVersion_unprintable_version :
  result (getDatasetVersion print_ten
            (respond_with 200
               (JObj [("codebase_version", JObj [("toString", JNum 1%float)]);
                      ("features", JObj [])]))
            empty_environment "lerobot/pusht" None)
  = Throw (VError
      {| err_name := "TypeError";
         err_message := "Cannot convert object to primitive value" |}).
Proof. reflexivity. Qed.
